(** * CloudFlair agent control plane: a shallow embedding

    The development follows the API worker of the repository:
    - [apps/api/src/routes/agent.ts]  (HMAC middleware, change and task submission),
    - [apps/api/src/routes/admin.ts]  (approve / reject, [executeAgentChange]),
    - [apps/api/src/jobs/queue.ts]    (queue consumer),
    - the cron module                 ([processScheduledTasks]),
    - [apps/api/src/db/schema.ts]     (the tables).

    Conventions of the model.
    - A JavaScript number is an integer of [Z] or [NaN]; the code only handles
      epoch seconds and small counters, far below 2^53, where doubles are exact.
    - A string is a [string]: a sequence of code units below 256.
    - A D1 table is the list of its rows, in the order in which the engine
      scans them; [select ... where ... limit n] is [take n (filter ...)],
      [update ... where] maps over the rows.
    - Workers KV and the environment bindings are finite maps ([gmap]).
    - A store operation fails where the data of a request can make it fail:
      Workers KV refuses a key that is empty, [.], [..] or longer than 512
      bytes, and an [expirationTtl] below 60; D1 refuses a NULL in the NOT
      NULL column [feature_flags.value]. The quotas of the platform on the
      size of a payload (a KV value over 25 MiB, a queue message over
      128 KB, a row over the D1 limit) are outside the model: its JSON
      values are taken to be within them.
    - [new Date()] reads an instant [now], in seconds, given by the caller. *)

From Stdlib Require Import ZArith String Ascii List Lia.
From stdpp Require Import base option list gmap strings pretty.

Local Open Scope string_scope.
Local Open Scope list_scope.
Local Open Scope Z_scope.

(** ** JavaScript primitives used by the worker *)

Module JS.

Inductive number : Type :=
| Num (z : Z)
| NaN.

Definition sub (a b : number) : number :=
  match a, b with
  | Num x, Num y => Num (x - y)
  | _, _ => NaN
  end.

(** [Math.abs] *)
Definition abs (a : number) : number :=
  match a with
  | Num x => Num (Z.abs x)
  | NaN => NaN
  end.

(** [a > b]: every comparison with [NaN] is false. *)
Definition gt (a b : number) : bool :=
  match a, b with
  | Num x, Num y => y <? x
  | _, _ => false
  end.

(** White space skipped by [parseInt]: TAB, LF, VT, FF, CR, SP, NBSP. *)
Definition is_white_space (c : ascii) : bool :=
  let n := Z.of_nat (nat_of_ascii c) in
  ((9 <=? n) && (n <=? 13)) || (n =? 32) || (n =? 160).

Fixpoint trim_start (s : string) : string :=
  match s with
  | String c r => if is_white_space c then trim_start r else s
  | EmptyString => s
  end.

(** Value of a character as a digit in a radix up to 36. *)
Definition digit_value (c : ascii) : option Z :=
  let n := Z.of_nat (nat_of_ascii c) in
  if (48 <=? n) && (n <=? 57) then Some (n - 48)
  else if (97 <=? n) && (n <=? 122) then Some (n - 87)
  else if (65 <=? n) && (n <=? 90) then Some (n - 55)
  else None.

(** The longest prefix of radix-[radix] digits, as an integer; [acc] is
    [None] until a digit has been read. *)
Fixpoint parse_digits (radix : Z) (s : string) (acc : option Z) : option Z :=
  match s with
  | EmptyString => acc
  | String c r =>
      match digit_value c with
      | Some d =>
          if d <? radix
          then parse_digits radix r (Some (radix * default 0 acc + d))
          else acc
      | None => acc
      end
  end.

(** [parseInt(s)] with no radix argument. *)
Definition parseInt (s : string) : number :=
  let s1 := trim_start s in
  let '(sign, s2) :=
    match s1 with
    | String "-" r => (-1, r)
    | String "+" r => (1, r)
    | _ => (1, s1)
    end in
  let '(radix, s3) :=
    match s2 with
    | String "0" (String "x" r) => (16, r)
    | String "0" (String "X" r) => (16, r)
    | _ => (10, s2)
    end in
  match parse_digits radix s3 None with
  | Some v => Num (sign * v)
  | None => NaN
  end.

(** [s.includes(needle)] *)
Fixpoint includes (s needle : string) : bool :=
  String.prefix needle s ||
  match s with
  | EmptyString => false
  | String _ r => includes r needle
  end.

(** [!v] for a value that is a string or [undefined]. *)
Definition falsy (v : option string) : bool :=
  match v with
  | None => true
  | Some s => bool_decide (s = "")
  end.

(** [Buffer.from(s, 'hex')]: pairs of hex digits, cut at the first pair that
    is not one; an odd last character is dropped. *)
Fixpoint Buffer_from_hex (s : string) : list Z :=
  match s with
  | String a (String b r) =>
      match digit_value a, digit_value b with
      | Some x, Some y =>
          if (x <? 16) && (y <? 16) then (16 * x + y) :: Buffer_from_hex r else []
      | _, _ => []
      end
  | _ => []
  end.

(** [timingSafeEqual] on buffers of equal length. *)
Definition timingSafeEqual (a b : list Z) : bool := bool_decide (a = b).

(** JSON values, as produced by [JSON.parse] and stored in JSON columns. *)
#[local] Unset Elimination Schemes.
Inductive Json : Type :=
| JNull
| JBool (b : bool)
| JNum (n : Z)
| JStr (s : string)
| JArr (items : list Json)
| JObj (fields : list (string * Json)).
#[local] Set Elimination Schemes.

(** [o.k] on a JSON value; [None] is [undefined]. *)
Definition get (k : string) (o : Json) : option Json :=
  match o with
  | JObj fields => snd <$> List.find (fun kv => String.eqb (fst kv) k) fields
  | _ => None
  end.

(** The length in bytes of the UTF-8 text of a string: a code unit below
    128 takes one byte, the others (below 256 in the model) take two. *)
Fixpoint utf8_length (s : string) : Z :=
  match s with
  | EmptyString => 0
  | String c r => (if Z.of_nat (nat_of_ascii c) <? 128 then 1 else 2) + utf8_length r
  end.

(** [String(v)]: the conversion that a platform call applies to an argument
    that has to be a string. An array joins its elements with commas, an
    element [null] giving the empty text. *)
Fixpoint to_String (v : Json) : string :=
  match v with
  | JNull => "null"
  | JBool b => if b then "true" else "false"
  | JNum n => pretty n
  | JStr s => s
  | JArr items =>
      (fix join (l : list Json) : string :=
         match l with
         | [] => ""
         | x :: rest =>
             match x with JNull => "" | _ => to_String x end
             +:+ match rest with [] => "" | _ => "," +:+ join rest end
         end) items
  | JObj _ => "[object Object]"
  end.

(** The same for a value that may be [undefined]. *)
Definition to_String_opt (v : option Json) : string :=
  match v with
  | Some x => to_String x
  | None => "undefined"
  end.

End JS.

(** What the platform provides and the model does not compute: the keyed
    hash and the text of a JSON value. *)
Class Crypto : Type := {
  (** [createHmac('sha256', key).update(message).digest('hex')] *)
  hmac_sha256_hex : string -> string -> string;
  JSON_stringify : JS.Json -> string;
}.

(** ** HTTP responses *)

Record Response : Type := mkResponse {
  code : Z;
  json : JS.Json;
}.

(** [c.json(obj, code)]; [c.json(obj)] answers 200. *)
Definition c_json (fields : list (string * JS.Json)) (status : Z) : Response :=
  mkResponse status (JS.JObj fields).

(** ** Tables of [db/schema.ts] *)

Inductive RiskLevel : Type := low | medium | high.

#[global] Instance RiskLevel_eq_dec : EqDecision RiskLevel.
Proof. solve_decision. Defined.

Module Change.

Inductive Status : Type := pending | approved | rejected | executed.

#[global] Instance Status_eq_dec : EqDecision Status.
Proof. solve_decision. Defined.

(** A row of [agent_changes]. *)
Record t : Type := mk {
  id : string;
  agentId : string;
  action : string;
  payloadHash : string;
  payload : JS.Json;
  riskLevel : RiskLevel;
  status : Status;
  approvedBy : option string;
  approvedAt : option Z;
  executedAt : option Z;
  error : option string;
  createdAt : Z;
}.

End Change.

Module Task.

Inductive Status : Type := pending | running | completed | failed.

#[global] Instance Status_eq_dec : EqDecision Status.
Proof. solve_decision. Defined.

(** A row of [agent_tasks]. *)
Record t : Type := mk {
  id : string;
  agentId : string;
  type : string;
  payloadJson : JS.Json;
  status : Status;
  priority : Z;
  attempts : Z;
  maxAttempts : Z;
  result : option JS.Json;
  error : option string;
  scheduledFor : option Z;
  startedAt : option Z;
  completedAt : option Z;
  createdAt : Z;
  updatedAt : Z;
}.

End Task.

Module FeatureFlag.

(** A row of [feature_flags]. *)
Record t : Type := mk {
  id : string;
  key : string;
  value : JS.Json;
  changedBy : string;
  changeReason : option string;
  previousValue : option JS.Json;
  createdAt : Z;
}.

End FeatureFlag.

Module Kpi.

(** A row of [kpi_snapshots]; the consumer's handlers add such rows. *)
Record t : Type := mk {
  id : string;
  date : string;
  metric : string;
  value : Z;
  metaJson : JS.Json;
}.

End Kpi.

(** ** The store, the platform bindings and the effect monad *)

(** Body of a message of the jobs queue ([QueueMessage] of [jobs/queue.ts]). *)
Module QueueMessage.

Record t : Type := mk {
  taskId : string;
  agentId : string;
  type : string;
  payload : JS.Json;
}.

End QueueMessage.

(** A delivered message of a [MessageBatch]. *)
Module Message.

Record t : Type := mk {
  id : string;
  body : QueueMessage.t;
}.

End Message.

(** A value kept by Workers KV under a key. *)
Record KvEntry : Type := mkKvEntry {
  text : string;
  expirationTtl : option Z;
}.

(** What the consumer tells the queue about a delivered message. *)
Inductive Event : Type :=
| ack (messageId : string)
| retry (messageId : string).

(** A thrown value: an [Error] with its message, or anything else. *)
Inductive Thrown : Type :=
| ErrorObject (message : string)
| NonError.

(** What one run of a task handler does: the rows it adds to
    [kpi_snapshots], the [result] it stores in its task, if any, and the
    value it throws, if it fails. *)
Record HandlerRun : Type := mkHandlerRun {
  kpis : list Kpi.t;
  stored : option JS.Json;
  thrown : option Thrown;
}.

(** The task handlers of [jobs/queue.ts]. *)
Inductive Handler : Type :=
| runSEOAuditTask
| runContentGenerationTask
| captureAnalyticsSnapshotTask
| sendEmailTask
| syncNewsletterTask
| executePlaybookTask.

(** The sources the worker reads and that the model does not compute: fresh
    identifiers, the clock, and the handlers, which call outside services
    and [Math.random]. Each reading is indexed by the number of readings
    made before it. *)
Class Platform : Type := {
  nanoid_at : nat -> string;
  Date_at : nat -> Z;
  run_handler : Handler -> QueueMessage.t -> nat -> HandlerRun;
}.

Record World : Type := mkWorld {
  agentChanges : list Change.t;
  agentTasks : list Task.t;
  featureFlags : list FeatureFlag.t;
  kpiSnapshots : list Kpi.t;
  CONFIG_KV : gmap string KvEntry;
  (** messages sent to the jobs queue, oldest first *)
  JOBS_QUEUE : list QueueMessage.t;
  (** acknowledgements and retry requests, oldest first *)
  events : list Event;
  (** number of readings of the platform made so far *)
  ticks : nat;
}.

Inductive Result (A : Type) : Type :=
| Ok (a : A)
| Throw (e : Thrown).

Arguments Ok {A} a.
Arguments Throw {A} e.

(** Computations over the world that return or throw. *)
Definition M (A : Type) : Type := World -> Result A * World.

#[global] Instance M_ret : MRet M := fun A a w => (Ok a, w).

#[global] Instance M_bind : MBind M := fun A B f m w =>
  match m w with
  | (Ok a, w') => f a w'
  | (Throw e, w') => (Throw e, w')
  end.

Definition throw {A : Type} (e : Thrown) : M A := fun w => (Throw e, w).

(** [try { body } catch (error) { handler }] *)
Definition try_catch {A : Type} (body : M A) (handler : Thrown -> M A) : M A :=
  fun w =>
    match body w with
    | (Ok a, w') => (Ok a, w')
    | (Throw e, w') => handler e w'
    end.

Definition get_world : M World := fun w => (Ok w, w).

Definition modify (f : World -> World) : M unit := fun w => (Ok tt, f w).

(** [for (const x of xs) { body }] *)
Fixpoint for_of {A : Type} (xs : list A) (body : A -> M unit) : M unit :=
  match xs with
  | [] => mret tt
  | x :: rest => body x ;; for_of rest body
  end.

Definition tick (w : World) : World :=
  mkWorld (agentChanges w) (agentTasks w) (featureFlags w) (kpiSnapshots w)
    (CONFIG_KV w) (JOBS_QUEUE w) (events w) (S (ticks w)).

(** [nanoid()] *)
Definition nanoid {platform : Platform} : M string :=
  fun w => (Ok (nanoid_at (ticks w)), tick w).

(** [new Date()] *)
Definition new_Date {platform : Platform} : M Z :=
  fun w => (Ok (Date_at (ticks w)), tick w).

Definition with_agentChanges (f : list Change.t -> list Change.t) (w : World) : World :=
  mkWorld (f (agentChanges w)) (agentTasks w) (featureFlags w) (kpiSnapshots w)
    (CONFIG_KV w) (JOBS_QUEUE w) (events w) (ticks w).

Definition with_agentTasks (f : list Task.t -> list Task.t) (w : World) : World :=
  mkWorld (agentChanges w) (f (agentTasks w)) (featureFlags w) (kpiSnapshots w)
    (CONFIG_KV w) (JOBS_QUEUE w) (events w) (ticks w).

Definition with_featureFlags (f : list FeatureFlag.t -> list FeatureFlag.t) (w : World) : World :=
  mkWorld (agentChanges w) (agentTasks w) (f (featureFlags w)) (kpiSnapshots w)
    (CONFIG_KV w) (JOBS_QUEUE w) (events w) (ticks w).

Definition with_kpiSnapshots (f : list Kpi.t -> list Kpi.t) (w : World) : World :=
  mkWorld (agentChanges w) (agentTasks w) (featureFlags w) (f (kpiSnapshots w))
    (CONFIG_KV w) (JOBS_QUEUE w) (events w) (ticks w).

Definition with_CONFIG_KV (f : gmap string KvEntry -> gmap string KvEntry) (w : World) : World :=
  mkWorld (agentChanges w) (agentTasks w) (featureFlags w) (kpiSnapshots w)
    (f (CONFIG_KV w)) (JOBS_QUEUE w) (events w) (ticks w).

Definition with_JOBS_QUEUE (f : list QueueMessage.t -> list QueueMessage.t) (w : World) : World :=
  mkWorld (agentChanges w) (agentTasks w) (featureFlags w) (kpiSnapshots w)
    (CONFIG_KV w) (f (JOBS_QUEUE w)) (events w) (ticks w).

Definition with_events (f : list Event -> list Event) (w : World) : World :=
  mkWorld (agentChanges w) (agentTasks w) (featureFlags w) (kpiSnapshots w)
    (CONFIG_KV w) (JOBS_QUEUE w) (f (events w)) (ticks w).

(** [db.insert(table).values(row)]: the new row comes last in the scan. *)
Definition insert_row {A : Type} (row : A) (rows : list A) : list A := rows ++ [row].

(** [db.update(table).set(...).where(cond)] *)
Definition update_where {A : Type} (cond : A -> bool) (set : A -> A) (rows : list A) : list A :=
  (fun r => if cond r then set r else r) <$> rows.

Arguments update_where : simpl never.

(** The key names that Workers KV accepts: not empty, neither [.] nor
    [..], and of 512 bytes at most. *)
Definition KV_key_ok (key : string) : bool :=
  negb (String.eqb key "") && negb (String.eqb key ".") && negb (String.eqb key "..")
  && (JS.utf8_length key <=? 512).

(** The [expirationTtl] that Workers KV accepts: absent, or at least 60
    seconds. *)
Definition KV_ttl_ok (ttl : option Z) : bool :=
  match ttl with
  | Some n => 60 <=? n
  | None => true
  end.

Definition KV_accepts (key : string) (ttl : option Z) : bool :=
  KV_key_ok key && KV_ttl_ok ttl.

(** [env.CONFIG_KV.put(key, value, options)]: a refused write throws and
    stores nothing. *)
Definition CONFIG_KV_put (key value : string) (ttl : option Z) : M unit :=
  if KV_accepts key ttl
  then modify (with_CONFIG_KV (fun kv => <[key := mkKvEntry value ttl]> kv))
  else throw (ErrorObject "KV PUT failed").

(** [env.JOBS_QUEUE.send(message)] *)
Definition JOBS_QUEUE_send (message : QueueMessage.t) : M unit :=
  modify (with_JOBS_QUEUE (fun q => q ++ [message])).

(** [message.ack()] and [message.retry()] *)
Definition message_ack (message : Message.t) : M unit :=
  modify (with_events (fun l => l ++ [ack (Message.id message)])).

Definition message_retry (message : Message.t) : M unit :=
  modify (with_events (fun l => l ++ [retry (Message.id message)])).

(** ** [routes/agent.ts]: authentication *)

Record AgentConfig : Type := mkAgentConfig {
  secret : string;
  riskLevel : RiskLevel;
}.

Definition AGENT_CONFIG : list (string * AgentConfig) :=
  [ ("ContentAgent", mkAgentConfig "CONTENTAGENT_API_KEY" medium);
    ("SEOAgent", mkAgentConfig "SEOAGENT_API_KEY" low);
    ("OpsAgent", mkAgentConfig "OPSAGENT_API_KEY" low);
    ("CommerceAgent", mkAgentConfig "COMMERCEAGENT_API_KEY" high);
    ("CommunityAgent", mkAgentConfig "COMMUNITYAGENT_API_KEY" medium) ].

(** [AGENT_CONFIG] is an object literal, so it also answers for the names
    it inherits from [Object.prototype]. *)
Definition Object_prototype_keys : list string :=
  [ "constructor"; "__proto__"; "hasOwnProperty"; "isPrototypeOf";
    "propertyIsEnumerable"; "toLocaleString"; "toString"; "valueOf";
    "__defineGetter__"; "__defineSetter__"; "__lookupGetter__";
    "__lookupSetter__" ].

Inductive Lookup : Type :=
| own (config : AgentConfig)
| inherited
| undefined.

(** [AGENT_CONFIG[agentId]] *)
Definition AGENT_CONFIG_get (agentId : string) : Lookup :=
  match List.find (fun kv => String.eqb (fst kv) agentId) AGENT_CONFIG with
  | Some kv => own (snd kv)
  | None =>
      if bool_decide (agentId ∈ Object_prototype_keys) then inherited else undefined
  end.

(** The answers of the middleware, under the names of the failures. *)
Definition MissingCredentials : Response :=
  c_json [("error", JS.JStr "Missing authentication headers")] 401.

Definition StaleRequest : Response :=
  c_json [("error", JS.JStr "Request timestamp too old")] 401.

Definition UnknownAgent : Response :=
  c_json [("error", JS.JStr "Unknown agent")] 401.

Definition ConfigurationError : Response :=
  c_json [("error", JS.JStr "Internal configuration error")] 500.

Definition InvalidSignature : Response :=
  c_json [("error", JS.JStr "Invalid signature")] 401.

(** Outcome of the middleware: an answer, or [next()] with the values it
    stored in the context ([agentId], [agentRiskLevel], [body]). *)
Inductive Auth : Type :=
| Respond (r : Response)
| Next (agentId : string) (agentRiskLevel : option RiskLevel) (body : string).

(** [verifyHMAC], from the lookup of the agent to the end. *)
Definition verifyHMAC_agent {crypto : Crypto} (env : gmap string string)
    (agentId timestamp signature body : string) : Auth :=
  match AGENT_CONFIG_get agentId with
  | undefined => Respond UnknownAgent
  | agentConfig =>
      let secretName :=
        match agentConfig with
        | own config => secret config
        | _ => "undefined"
        end in
      let secret := env !! secretName in
      if JS.falsy secret then Respond ConfigurationError
      else
        let message := agentId +:+ ":" +:+ timestamp +:+ ":" +:+ body in
        let expectedSignature := hmac_sha256_hex (default "" secret) message in
        let providedSig := JS.Buffer_from_hex signature in
        let expectedSig := JS.Buffer_from_hex expectedSignature in
        if negb (bool_decide (length providedSig = length expectedSig))
           || negb (JS.timingSafeEqual providedSig expectedSig)
        then Respond InvalidSignature
        else
          Next agentId
            (match agentConfig with
             | own config => Some (riskLevel config)
             | _ => None
             end)
            body
  end.

(** [verifyHMAC]: [now] is [Math.floor(Date.now() / 1000)], the three
    headers are string or [undefined], [body] is the raw request text. *)
Definition verifyHMAC {crypto : Crypto} (env : gmap string string) (now : Z)
    (X_Agent_Id X_Timestamp X_Signature : option string) (body : string) : Auth :=
  if JS.falsy X_Agent_Id || JS.falsy X_Timestamp || JS.falsy X_Signature
  then Respond MissingCredentials
  else
    let agentId := default "" X_Agent_Id in
    let timestamp := default "" X_Timestamp in
    let signature := default "" X_Signature in
    let requestTime := JS.parseInt timestamp in
    if JS.gt (JS.abs (JS.sub (JS.Num now) requestTime)) (JS.Num 300)
    then Respond StaleRequest
    else verifyHMAC_agent env agentId timestamp signature body.

(** ** [routes/agent.ts]: submissions

    A route is given what the middleware stored in the context for a
    configured agent ([agentId], [riskLevel]) and the outcome [result] of
    [Schema.safeParse(JSON.parse(body))]. *)

Inductive SafeParse (A : Type) : Type :=
| success (data : A)
| failure (details : JS.Json).

Arguments success {A} data.
Arguments failure {A} details.

(** An optional property of an object. *)
Definition optional (k : string) (v : option JS.Json) : list (string * JS.Json) :=
  match v with
  | Some j => [(k, j)]
  | None => []
  end.

Module ContentProposal.

Record Metadata : Type := mkMetadata {
  title : option string;
  description : option string;
  tags : option (list string);
}.

(** Data accepted by [ContentProposalSchema]. *)
Record t : Type := mk {
  path : string;
  markdown : string;
  reason : string;
  metadata : option Metadata;
}.

Definition Metadata_to_json (m : Metadata) : JS.Json :=
  JS.JObj (optional "title" (JS.JStr <$> title m)
           ++ optional "description" (JS.JStr <$> description m)
           ++ optional "tags" ((fun l => JS.JArr (JS.JStr <$> l)) <$> tags m)).

Definition to_json (d : t) : JS.Json :=
  JS.JObj ([("path", JS.JStr (path d)); ("markdown", JS.JStr (markdown d));
            ("reason", JS.JStr (reason d))]
           ++ optional "metadata" (Metadata_to_json <$> metadata d)).

End ContentProposal.

Module FlagChange.

(** Data accepted by [FlagChangeSchema], for a body that carries a [value]. *)
Record t : Type := mk {
  flagKey : string;
  value : JS.Json;
  ttl : option Z;
  reason : string;
}.

Definition to_json (d : t) : JS.Json :=
  JS.JObj ([("flagKey", JS.JStr (flagKey d)); ("value", value d)]
           ++ optional "ttl" (JS.JNum <$> ttl d)
           ++ [("reason", JS.JStr (reason d))]).

End FlagChange.

Module TaskRequest.

(** Data accepted by [TaskSchema]; [scheduledFor] is the instant that the
    date-time string denotes. *)
Record t : Type := mk {
  type : string;
  payload : JS.Json;
  priority : Z;
  scheduledFor : option Z;
}.

End TaskRequest.

(** The column default [CURRENT_TIMESTAMP]. *)
Definition CURRENT_TIMESTAMP {platform : Platform} : M Z := new_Date.

Definition invalid_input (details : JS.Json) : Response :=
  c_json [("error", JS.JStr "Invalid input"); ("details", details)] 400.

(** [POST /agent/proposals/content] *)
Definition post_proposals_content {crypto : Crypto} {platform : Platform}
    (agentId : string) (riskLevel : RiskLevel)
    (result : SafeParse ContentProposal.t) : M Response :=
  match result with
  | failure details => mret (invalid_input details)
  | success data =>
      changeId ← nanoid;
      createdAt ← CURRENT_TIMESTAMP;
      modify (with_agentChanges (insert_row
        {| Change.id := changeId;
           Change.agentId := agentId;
           Change.action := "content_proposal";
           Change.payloadHash :=
             hmac_sha256_hex "salt" (JSON_stringify (ContentProposal.to_json data));
           Change.payload := ContentProposal.to_json data;
           Change.riskLevel := riskLevel;
           Change.status :=
             if bool_decide (riskLevel = low) then Change.approved else Change.pending;
           Change.approvedBy := None;
           Change.approvedAt := None;
           Change.executedAt := None;
           Change.error := None;
           Change.createdAt := createdAt |})) ;;
      if bool_decide (riskLevel = low)
      then
        (* TODO of the source: no call creates the pull request *)
        mret (c_json [("id", JS.JStr changeId);
                      ("status", JS.JStr "approved");
                      ("message", JS.JStr "Content proposal auto-approved and PR created")]
                200)
      else
        mret (c_json [("id", JS.JStr changeId);
                      ("status", JS.JStr "pending");
                      ("message", JS.JStr "Content proposal requires human approval");
                      ("approvalUrl",
                       JS.JStr ("https://cloudflair.com/admin/approvals/" +:+ changeId))]
                200)
  end.

(** The option of [CONFIG_KV.put] that [POST /agent/flags] passes:
    [ttl ? { expirationTtl: ttl } : undefined]. *)
Definition ttl_option (ttl : option Z) : option Z :=
  match ttl with
  | Some n => if bool_decide (n = 0) then None else Some n
  | None => None
  end.

(** The test [isHighRisk] of [POST /agent/flags] on the flag key. *)
Definition isHighRisk (flagKey : string) : bool :=
  JS.includes flagKey "production" || JS.includes flagKey "critical".

(** [db.insert(featureFlags).values(row)]: the column [value] is NOT NULL,
    and a JSON [null] is stored as NULL, so the insert of such a row
    throws and adds nothing. *)
Definition featureFlags_insert (row : FeatureFlag.t) : M unit :=
  match FeatureFlag.value row with
  | JS.JNull => throw (ErrorObject "NOT NULL constraint failed: feature_flags.value")
  | _ => modify (with_featureFlags (insert_row row))
  end.

(** [POST /agent/flags]. The flag is written before the audit row: when
    the insert of the audit row throws, the flag stays written. *)
Definition post_flags {crypto : Crypto} {platform : Platform}
    (agentId : string) (riskLevel : RiskLevel)
    (result : SafeParse FlagChange.t) : M Response :=
  match result with
  | failure details => mret (invalid_input details)
  | success data =>
      changeId ← nanoid;
      if isHighRisk (FlagChange.flagKey data) && negb (bool_decide (riskLevel = low))
      then
        createdAt ← CURRENT_TIMESTAMP;
        modify (with_agentChanges (insert_row
          {| Change.id := changeId;
             Change.agentId := agentId;
             Change.action := "flag_change";
             Change.payloadHash :=
               hmac_sha256_hex "salt" (JSON_stringify (FlagChange.to_json data));
             Change.payload := FlagChange.to_json data;
             Change.riskLevel := high;
             Change.status := Change.pending;
             Change.approvedBy := None;
             Change.approvedAt := None;
             Change.executedAt := None;
             Change.error := None;
             Change.createdAt := createdAt |})) ;;
        mret (c_json [("id", JS.JStr changeId);
                      ("status", JS.JStr "pending");
                      ("message", JS.JStr "High-risk flag change requires approval")]
                200)
      else
        CONFIG_KV_put (FlagChange.flagKey data)
          (JSON_stringify (FlagChange.value data))
          (ttl_option (FlagChange.ttl data)) ;;
        flagId ← nanoid;
        createdAt ← CURRENT_TIMESTAMP;
        featureFlags_insert
          {| FeatureFlag.id := flagId;
             FeatureFlag.key := FlagChange.flagKey data;
             FeatureFlag.value := FlagChange.value data;
             FeatureFlag.changedBy := agentId;
             FeatureFlag.changeReason := Some (FlagChange.reason data);
             FeatureFlag.previousValue := None;
             FeatureFlag.createdAt := createdAt |} ;;
        mret (c_json [("id", JS.JStr changeId);
                      ("status", JS.JStr "applied");
                      ("message", JS.JStr "Flag updated successfully")]
                200)
  end.

(** [POST /agent/tasks] *)
Definition post_tasks {platform : Platform}
    (agentId : string) (result : SafeParse TaskRequest.t) : M Response :=
  match result with
  | failure details => mret (invalid_input details)
  | success data =>
      taskId ← nanoid;
      createdAt ← CURRENT_TIMESTAMP;
      modify (with_agentTasks (insert_row
        {| Task.id := taskId;
           Task.agentId := agentId;
           Task.type := TaskRequest.type data;
           Task.payloadJson := TaskRequest.payload data;
           Task.status := Task.pending;
           Task.priority := TaskRequest.priority data;
           Task.attempts := 0;
           Task.maxAttempts := 3;
           Task.result := None;
           Task.error := None;
           Task.scheduledFor := TaskRequest.scheduledFor data;
           Task.startedAt := None;
           Task.completedAt := None;
           Task.createdAt := createdAt;
           Task.updatedAt := createdAt |})) ;;
      JOBS_QUEUE_send
        {| QueueMessage.taskId := taskId;
           QueueMessage.agentId := agentId;
           QueueMessage.type := TaskRequest.type data;
           QueueMessage.payload := TaskRequest.payload data |} ;;
      mret (c_json [("id", JS.JStr taskId);
                    ("status", JS.JStr "queued");
                    ("message", JS.JStr "Task queued for processing")]
              200)
  end.

(** ** [routes/admin.ts]: human decisions *)

Definition Change_set_approved (by_ : string) (at_ : Z) (c : Change.t) : Change.t :=
  Change.mk (Change.id c) (Change.agentId c) (Change.action c) (Change.payloadHash c)
    (Change.payload c) (Change.riskLevel c) Change.approved (Some by_) (Some at_)
    (Change.executedAt c) (Change.error c) (Change.createdAt c).

Definition Change_set_rejected (by_ : string) (at_ : Z) (reason : string)
    (c : Change.t) : Change.t :=
  Change.mk (Change.id c) (Change.agentId c) (Change.action c) (Change.payloadHash c)
    (Change.payload c) (Change.riskLevel c) Change.rejected (Some by_) (Some at_)
    (Change.executedAt c) (Some reason) (Change.createdAt c).

Definition Change_set_executed (at_ : Z) (c : Change.t) : Change.t :=
  Change.mk (Change.id c) (Change.agentId c) (Change.action c) (Change.payloadHash c)
    (Change.payload c) (Change.riskLevel c) Change.executed (Change.approvedBy c)
    (Change.approvedAt c) (Some at_) (Change.error c) (Change.createdAt c).

(** [eq(agentChanges.id, changeId)] *)
Definition Change_id_is (changeId : string) (c : Change.t) : bool :=
  String.eqb (Change.id c) changeId.

(** [JSON.stringify(change.payload.value)] as [CONFIG_KV.put] stores it: for
    a payload without [value] the argument is [undefined], and the text
    [undefined] is stored. *)
Definition stored_text {crypto : Crypto} (value : option JS.Json) : string :=
  match value with
  | Some v => JSON_stringify v
  | None => "undefined"
  end.

(** [executeAgentChange]. For a [flag_change] the flag is written from the
    stored payload, without [expirationTtl]: the key is
    [change.payload.flagKey] and the text is that of
    [change.payload.value], both as the call converts them. Reading a
    property of the payload [null] throws. *)
Definition executeAgentChange {crypto : Crypto} {platform : Platform} (change : Change.t) : M unit :=
  (if String.eqb (Change.action change) "content_proposal"
   then mret tt
   else if String.eqb (Change.action change) "flag_change"
   then
     match Change.payload change with
     | JS.JNull => throw (ErrorObject "TypeError")
     | payload =>
         CONFIG_KV_put (JS.to_String_opt (JS.get "flagKey" payload))
           (stored_text (JS.get "value" payload)) None
     end
   else mret tt) ;;
  executedAt ← new_Date;
  modify (with_agentChanges
    (update_where (Change_id_is (Change.id change)) (Change_set_executed executedAt))).

Definition NotFound : Response :=
  c_json [("error", JS.JStr "Change not found")] 404.

Definition AlreadyDecided : Response :=
  c_json [("error", JS.JStr "Change already processed")] 400.

(** [POST /admin/approvals/:id/approve] *)
Definition approve {crypto : Crypto} {platform : Platform} (changeId : string) : M Response :=
  w ← get_world;
  let change := take 1 (List.filter (Change_id_is changeId) (agentChanges w)) in
  match change with
  | [] => mret NotFound
  | change0 :: _ =>
      if negb (bool_decide (Change.status change0 = Change.pending))
      then mret AlreadyDecided
      else
        approvedAt ← new_Date;
        modify (with_agentChanges
          (update_where (Change_id_is changeId) (Change_set_approved "admin" approvedAt))) ;;
        executeAgentChange change0 ;;
        mret (c_json [("message", JS.JStr "Change approved and executed");
                      ("id", JS.JStr changeId)]
                200)
  end.

(** [POST /admin/approvals/:id/reject]; [reason] is [body.reason]. *)
Definition reject {platform : Platform} (changeId : string) (reason : string) : M Response :=
  approvedAt ← new_Date;
  modify (with_agentChanges
    (update_where (Change_id_is changeId) (Change_set_rejected "admin" approvedAt reason))) ;;
  mret (c_json [("message", JS.JStr "Change rejected");
                ("id", JS.JStr changeId)]
          200).

(** ** [jobs/queue.ts]: the queue consumer *)

(** [eq(agentTasks.id, taskId)] *)
Definition Task_id_is (taskId : string) (t : Task.t) : bool :=
  String.eqb (Task.id t) taskId.

Definition Task_set_running (startedAt : Z) (t : Task.t) : Task.t :=
  Task.mk (Task.id t) (Task.agentId t) (Task.type t) (Task.payloadJson t)
    Task.running (Task.priority t) (Task.attempts t) (Task.maxAttempts t)
    (Task.result t) (Task.error t) (Task.scheduledFor t) (Some startedAt)
    (Task.completedAt t) (Task.createdAt t) (Task.updatedAt t).

Definition Task_set_completed (completedAt : Z) (t : Task.t) : Task.t :=
  Task.mk (Task.id t) (Task.agentId t) (Task.type t) (Task.payloadJson t)
    Task.completed (Task.priority t) (Task.attempts t) (Task.maxAttempts t)
    (Task.result t) (Task.error t) (Task.scheduledFor t) (Task.startedAt t)
    (Some completedAt) (Task.createdAt t) (Task.updatedAt t).

Definition Task_set_failed (error : string) (completedAt : Z) (t : Task.t) : Task.t :=
  Task.mk (Task.id t) (Task.agentId t) (Task.type t) (Task.payloadJson t)
    Task.failed (Task.priority t) (Task.attempts t) (Task.maxAttempts t)
    (Task.result t) (Some error) (Task.scheduledFor t) (Task.startedAt t)
    (Some completedAt) (Task.createdAt t) (Task.updatedAt t).

Definition Task_set_result (result : JS.Json) (t : Task.t) : Task.t :=
  Task.mk (Task.id t) (Task.agentId t) (Task.type t) (Task.payloadJson t)
    (Task.status t) (Task.priority t) (Task.attempts t) (Task.maxAttempts t)
    (Some result) (Task.error t) (Task.scheduledFor t) (Task.startedAt t)
    (Task.completedAt t) (Task.createdAt t) (Task.updatedAt t).

(** The [switch (message.type)] of [processMessage]: the handler of a task
    type, [None] for the [default] branch. *)
Definition handler_of (type : string) : option Handler :=
  if String.eqb type "seo_audit" then Some runSEOAuditTask
  else if String.eqb type "content_generation" then Some runContentGenerationTask
  else if String.eqb type "analytics_snapshot" then Some captureAnalyticsSnapshotTask
  else if String.eqb type "send_email" then Some sendEmailTask
  else if String.eqb type "sync_newsletter" then Some syncNewsletterTask
  else if String.eqb type "playbook_execution" then Some executePlaybookTask
  else None.

(** A call of a handler: its rows go to [kpi_snapshots], its result to the
    [result] column of its task, and it returns or throws. *)
Definition call_handler {platform : Platform} (h : Handler) (message : QueueMessage.t) : M unit :=
  fun w =>
    let run := run_handler h message (ticks w) in
    let w1 := with_kpiSnapshots (fun rows => rows ++ kpis run) (tick w) in
    let w2 :=
      match stored run with
      | Some result =>
          with_agentTasks
            (update_where (Task_id_is (QueueMessage.taskId message)) (Task_set_result result))
            w1
      | None => w1
      end in
    match thrown run with
    | Some e => (Throw e, w2)
    | None => (Ok tt, w2)
    end.

(** [processMessage] *)
Definition processMessage {platform : Platform} (message : QueueMessage.t) : M unit :=
  startedAt ← new_Date;
  modify (with_agentTasks
    (update_where (Task_id_is (QueueMessage.taskId message)) (Task_set_running startedAt))) ;;
  match handler_of (QueueMessage.type message) with
  | Some h => call_handler h message
  | None => mret tt
  end ;;
  completedAt ← new_Date;
  modify (with_agentTasks
    (update_where (Task_id_is (QueueMessage.taskId message)) (Task_set_completed completedAt))).

(** [error instanceof Error ? error.message : 'Unknown error'] *)
Definition error_text (error : Thrown) : string :=
  match error with
  | ErrorObject message => message
  | NonError => "Unknown error"
  end.

(** The body of the loop of [handleQueueBatch], for one delivered message. *)
Definition handleQueueMessage {platform : Platform} (message : Message.t) : M unit :=
  try_catch
    (processMessage (Message.body message) ;;
     message_ack message)
    (fun error =>
       (if negb (bool_decide (QueueMessage.taskId (Message.body message) = ""))
        then
          completedAt ← new_Date;
          modify (with_agentTasks
            (update_where (Task_id_is (QueueMessage.taskId (Message.body message)))
               (Task_set_failed (error_text error) completedAt)))
        else mret tt) ;;
       message_retry message).

(** [handleQueueBatch] *)
Definition handleQueueBatch {platform : Platform} (batch : list Message.t) : M unit :=
  for_of batch handleQueueMessage.

(** ** The cron module: the sweep of scheduled tasks *)

(** [and(eq(agentTasks.status, 'pending'), lte(agentTasks.scheduledFor, now))];
    a comparison with a null [scheduledFor] selects nothing. *)
Definition is_due (now : Z) (t : Task.t) : bool :=
  bool_decide (Task.status t = Task.pending)
  && match Task.scheduledFor t with
     | Some at_ => at_ <=? now
     | None => false
     end.

(** The query of [processScheduledTasks]: the due tasks, ten at most; no
    order is asked for, so they come in the order of the scan. *)
Definition scheduledTasks (now : Z) (rows : list Task.t) : list Task.t :=
  take 10 (List.filter (is_due now) rows).

(** The message that the sweep sends for a task. *)
Definition message_of_task (task : Task.t) : QueueMessage.t :=
  {| QueueMessage.taskId := Task.id task;
     QueueMessage.agentId := Task.agentId task;
     QueueMessage.type := Task.type task;
     QueueMessage.payload := Task.payloadJson task |}.

(** [processScheduledTasks] *)
Definition processScheduledTasks {platform : Platform} : M unit :=
  now ← new_Date;
  w ← get_world;
  for_of (scheduledTasks now (agentTasks w)) (fun task =>
    JOBS_QUEUE_send (message_of_task task) ;;
    modify (with_agentTasks
      (update_where (Task_id_is (Task.id task)) (Task_set_running now)))).

(** The table after the loop of the sweep, in closed form: the rows whose
    identifier is among the selected ones are set [running]. *)
Definition swept (now : Z) (selected rows : list Task.t) : list Task.t :=
  (fun t =>
     if bool_decide (Task.id t ∈ Task.id <$> selected)
     then Task_set_running now t
     else t) <$> rows.

Arguments swept : simpl never.

(** Nothing but [agent_changes] differs between two worlds: no flag is
    written, no audit row of [feature_flags] added, no message sent. *)
Definition only_agentChanges_differ (w w' : World) : Prop :=
  agentTasks w' = agentTasks w
  ∧ featureFlags w' = featureFlags w
  ∧ kpiSnapshots w' = kpiSnapshots w
  ∧ CONFIG_KV w' = CONFIG_KV w
  ∧ JOBS_QUEUE w' = JOBS_QUEUE w
  ∧ events w' = events w.

(** ** Test doubles and sample data *)

Module Sample.

(** A keyed hash that ignores its input and a printer for scalars. *)
Definition crypto : Crypto :=
  {| hmac_sha256_hex := fun _ _ => "00";
     JSON_stringify := fun j =>
       match j with
       | JS.JNull => "null"
       | JS.JBool true => "true"
       | JS.JBool false => "false"
       | JS.JNum n => pretty n
       | JS.JStr s => s
       | JS.JArr _ => "[]"
       | JS.JObj _ => "{}"
       end |}.

(** Identifiers [id-0], [id-1], ..., a clock that starts at 1700000000 and
    handlers that all behave as [outcome] says. *)
Definition platform (outcome : Handler -> HandlerRun) : Platform :=
  {| nanoid_at := fun n => "id-" +:+ pretty n;
     Date_at := fun n => 1700000000 + Z.of_nat n;
     run_handler := fun h _ _ => outcome h |}.

Definition succeeds : Handler -> HandlerRun :=
  fun _ => mkHandlerRun [] None None.

Definition fails (message : string) : Handler -> HandlerRun :=
  fun _ => mkHandlerRun [] None (Some (ErrorObject message)).

Definition empty_world : World :=
  mkWorld [] [] [] [] ∅ [] [] 0.

Definition env : gmap string string :=
  {[ "CONTENTAGENT_API_KEY" := "s3cret" ]}.

(** A pending task of [OpsAgent] with the defaults of the schema. *)
Definition task (id type : string) (attempts : Z) (scheduledFor : option Z) : Task.t :=
  Task.mk id "OpsAgent" type JS.JNull Task.pending 5 attempts 3 None None
    scheduledFor None None 1699999000 1699999000.

(** The message delivered for a task. *)
Definition message_for (messageId : string) (t : Task.t) : Message.t :=
  Message.mk messageId
    (QueueMessage.mk (Task.id t) (Task.agentId t) (Task.type t) (Task.payloadJson t)).

Definition world_of_tasks (tasks : list Task.t) : World :=
  mkWorld [] tasks [] [] ∅ [] [] 0.

Definition world_of_changes (changes : list Change.t) : World :=
  mkWorld changes [] [] [] ∅ [] [] 0.

Definition proposal : ContentProposal.t :=
  ContentProposal.mk "blog/launch.md" "# Launch" "announce the launch" None.

Definition flag (flagKey : string) : FlagChange.t :=
  FlagChange.mk flagKey (JS.JBool true) None "rollout".

(** A flag change of [CommerceAgent] that was approved and executed. *)
Definition executed_change : Change.t :=
  Change.mk "c1" "CommerceAgent" "flag_change" "00"
    (FlagChange.to_json (flag "production.maintenance_mode")) high Change.executed
    (Some "admin") (Some 1699990000) (Some 1699990001) None 1699980000.

(** Eleven due tasks; the one scanned last is scheduled first. *)
Definition backlog : list Task.t :=
  [ task "t0" "seo_audit" 0 (Some 1010); task "t1" "seo_audit" 0 (Some 1011);
    task "t2" "seo_audit" 0 (Some 1012); task "t3" "seo_audit" 0 (Some 1013);
    task "t4" "seo_audit" 0 (Some 1014); task "t5" "seo_audit" 0 (Some 1015);
    task "t6" "seo_audit" 0 (Some 1016); task "t7" "seo_audit" 0 (Some 1017);
    task "t8" "seo_audit" 0 (Some 1018); task "t9" "seo_audit" 0 (Some 1019);
    task "t10" "seo_audit" 0 (Some 1000) ].

End Sample.

(** ** The specification's reading of some operations

    These definitions follow the words of the specification, not the code;
    the code is compared with them. *)

(** Section 4.3, step 4: on failure [attempts] is incremented; below
    [maxAttempts] the task returns to [pending] and the message is
    requeued; at [maxAttempts] the task is [failed] and the message is not
    requeued. *)
Definition Spec_on_failure (before after : Task.t) (requeued : bool) : Prop :=
  Task.attempts after = Task.attempts before + 1
  ∧ if Task.attempts after <? Task.maxAttempts after
    then Task.status after = Task.pending ∧ requeued = true
    else Task.status after = Task.failed ∧ requeued = false.


(** Section 8: a flag change with a sensitive key is recorded with
    [riskLevel = high] and [status = pending]. *)
Definition Spec_recorded_high_pending (w w' : World) : Prop :=
  exists c,
    agentChanges w' = agentChanges w ++ [c]
    ∧ Change.riskLevel c = high
    ∧ Change.status c = Change.pending.

(** Section 4.2: for a low-risk agent the Executor runs within the
    submission, which leaves the Change [executed], or [approved] with the
    error recorded. *)
Definition Spec_auto_executed (c : Change.t) : Prop :=
  Change.status c = Change.executed
  ∨ (Change.status c = Change.approved ∧ is_Some (Change.error c)).

(** Section 4.4: the sweep takes the due tasks earliest-[scheduledFor]
    first, so a due task that it sends is scheduled no later than a due
    task that it leaves. [sent] holds the identifiers of the tasks sent. *)
Definition Spec_earliest_first (now : Z) (tasks : list Task.t) (sent : list string) : Prop :=
  forall t u a b,
    t ∈ tasks -> u ∈ tasks ->
    is_due now t = true -> is_due now u = true ->
    Task.id t ∈ sent -> Task.id u ∉ sent ->
    Task.scheduledFor t = Some a -> Task.scheduledFor u = Some b ->
    a <= b.

(** ** Further operations of the worker *)

(** [POST /agent/seo/audit]; [body] is [JSON.parse(c.get('body'))]. The
    route sends a message and writes no row of [agent_tasks]. *)
Definition post_seo_audit {platform : Platform} (agentId : string) (body : JS.Json) : M Response :=
  taskId ← nanoid;
  JOBS_QUEUE_send
    {| QueueMessage.taskId := taskId;
       QueueMessage.agentId := agentId;
       QueueMessage.type := "seo_audit";
       QueueMessage.payload := body |} ;;
  mret (c_json [("id", JS.JStr taskId);
                ("status", JS.JStr "queued");
                ("message", JS.JStr "SEO audit queued")]
          200).

(** What [toISOString] prints for an instant; the calendar is not
    computed by the model. *)
Class Calendar : Type := {
  toISOString : Z -> string;
}.

(** [s.split('T')[0]]: the text before the first [T]. *)
Fixpoint before_T (s : string) : string :=
  match s with
  | EmptyString => EmptyString
  | String c r => if Ascii.eqb c "T" then EmptyString else String c (before_T r)
  end.

(** [runSEOAudit] of the jobs: the weekly audit queued by the cron. *)
Definition runSEOAudit {platform : Platform} {calendar : Calendar} : M unit :=
  taskId ← nanoid;
  timestamp ← new_Date;
  createdAt ← CURRENT_TIMESTAMP;
  modify (with_agentTasks (insert_row
    {| Task.id := taskId;
       Task.agentId := "SEOAgent";
       Task.type := "seo_audit";
       Task.payloadJson :=
         JS.JObj [("fullSite", JS.JBool true);
                  ("includeImages", JS.JBool true);
                  ("checkBrokenLinks", JS.JBool true);
                  ("analyzeMeta", JS.JBool true);
                  ("timestamp", JS.JStr (toISOString timestamp))];
       Task.status := Task.pending;
       Task.priority := 5;
       Task.attempts := 0;
       Task.maxAttempts := 3;
       Task.result := None;
       Task.error := None;
       Task.scheduledFor := None;
       Task.startedAt := None;
       Task.completedAt := None;
       Task.createdAt := createdAt;
       Task.updatedAt := createdAt |})) ;;
  JOBS_QUEUE_send
    {| QueueMessage.taskId := taskId;
       QueueMessage.agentId := "SEOAgent";
       QueueMessage.type := "seo_audit";
       QueueMessage.payload :=
         JS.JObj [("fullSite", JS.JBool true);
                  ("urls", JS.JArr [JS.JStr "https://cloudflair.com";
                                    JS.JStr "https://cloudflair.com/pricing";
                                    JS.JStr "https://cloudflair.com/blog";
                                    JS.JStr "https://cloudflair.com/docs"])] |} ;;
  kpiId ← nanoid;
  date ← new_Date;
  stamped ← new_Date;
  modify (with_kpiSnapshots (insert_row
    {| Kpi.id := kpiId;
       Kpi.date := before_T (toISOString date);
       Kpi.metric := "seo_audit_initiated";
       Kpi.value := 1;
       Kpi.metaJson :=
         JS.JObj [("taskId", JS.JStr taskId);
                  ("type", JS.JStr "weekly");
                  ("timestamp", JS.JStr (toISOString stamped))] |})).

Module ErrorSignature.

(** A row of [error_signatures]. *)
Record t : Type := mk {
  id : string;
  key : string;
  message : option string;
  stack : option string;
  count : Z;
  firstSeenAt : Z;
  lastSeenAt : Z;
  resolved : bool;
  metadata : option JS.Json;
}.

End ErrorSignature.

(** The store of the cron: the world and the table [error_signatures]. *)
Record Store : Type := mkStore {
  world : World;
  errorSignatures : list ErrorSignature.t;
}.

(** What a thrown value answers for [name] in a template and for [stack]. *)
Class ErrorView : Type := {
  error_name : Thrown -> string;
  error_stack : Thrown -> option string;
}.

(** [error.message] *)
Definition error_message (error : Thrown) : option string :=
  match error with
  | ErrorObject message => Some message
  | NonError => None
  end.

(** A job of the cron: it runs on the store and returns or throws. *)
Definition Job : Type := Store -> Result unit * Store.

(** A computation on the world, as a job. *)
Definition lift_job (m : M unit) : Job :=
  fun s =>
    match m (world s) with
    | (r, w') => (r, mkStore w' (errorSignatures s))
    end.

(** [if (cond) { await job(env) }] *)
Definition when (cond : bool) (job : Job) : Job :=
  if cond then job else fun s => (Ok tt, s).

(** Two statements in sequence. *)
Definition and_then (first second : Job) : Job :=
  fun s =>
    match first s with
    | (Ok _, s') => second s'
    | (Throw e, s') => (Throw e, s')
    end.

(** The jobs of the cron that the model does not compute: they call
    outside services and render reports. *)
Class CronJobs : Type := {
  generateDailyReport : Job;
  captureAnalyticsSnapshot : Job;
  checkUptime : Job;
}.

(** [getUTCHours], [getUTCMinutes] and [getUTCDay] of the date of a time
    value in milliseconds. *)
Definition getUTCHours (t : Z) : Z := (t / 3600000) mod 24.

Definition getUTCMinutes (t : Z) : Z := (t / 60000) mod 60.

Definition getUTCDay (t : Z) : Z := (t / 86400000 + 4) mod 7.

(** [eq(errorSignatures.key, errorKey)] *)
Definition ErrorSignature_key_is (errorKey : string) (r : ErrorSignature.t) : bool :=
  String.eqb (ErrorSignature.key r) errorKey.

(** The [set] of the update of [logCronError]: [count + 1], [lastSeenAt]
    and, when the error has one, [stack]. *)
Definition ErrorSignature_seen_again (lastSeenAt : Z) (stack : option string)
    (r : ErrorSignature.t) : ErrorSignature.t :=
  ErrorSignature.mk (ErrorSignature.id r) (ErrorSignature.key r)
    (ErrorSignature.message r)
    (match stack with
     | Some s => Some s
     | None => ErrorSignature.stack r
     end)
    (ErrorSignature.count r + 1) (ErrorSignature.firstSeenAt r) lastSeenAt
    (ErrorSignature.resolved r) (ErrorSignature.metadata r).

(** The key under which [logCronError] files an error. *)
Definition cron_error_key {view : ErrorView} (error : Thrown) (cronTime : Z) : string :=
  "cron_" +:+ error_name error +:+ "_" +:+ pretty (getUTCHours cronTime).

(** [logCronError] *)
Definition logCronError {platform : Platform} {view : ErrorView}
    (error : Thrown) (cronTime : Z) (s : Store) : Store :=
  let errorKey := cron_error_key error cronTime in
  let existing :=
    take 1 (List.filter (ErrorSignature_key_is errorKey) (errorSignatures s)) in
  match existing with
  | _ :: _ =>
      let lastSeenAt := Date_at (ticks (world s)) in
      mkStore (tick (world s))
        (update_where (ErrorSignature_key_is errorKey)
           (ErrorSignature_seen_again lastSeenAt (error_stack error))
           (errorSignatures s))
  | [] =>
      let id := nanoid_at (ticks (world s)) in
      let firstSeenAt := Date_at (S (ticks (world s))) in
      let lastSeenAt := Date_at (S (S (ticks (world s)))) in
      mkStore (tick (tick (tick (world s))))
        (insert_row
           (ErrorSignature.mk id errorKey (error_message error) (error_stack error)
              1 firstSeenAt lastSeenAt false None)
           (errorSignatures s))
  end.

(** The body of the [try] of [handleCronTrigger]. *)
Definition cron_jobs {platform : Platform} {calendar : Calendar} {jobs : CronJobs}
    (cronTime : Z) : Job :=
  let hour := getUTCHours cronTime in
  let minute := getUTCMinutes cronTime in
  let dayOfWeek := getUTCDay cronTime in
  and_then (when ((hour =? 11) && (minute =? 30)) generateDailyReport)
    (and_then (when ((hour mod 6 =? 0) && (minute =? 0)) captureAnalyticsSnapshot)
       (and_then (when ((dayOfWeek =? 0) && (hour =? 2) && (minute =? 0))
                    (lift_job runSEOAudit))
          (and_then (when (minute =? 0) checkUptime)
             (lift_job processScheduledTasks)))).

(** [handleCronTrigger]; [scheduledTime] is [event.scheduledTime]. *)
Definition handleCronTrigger {platform : Platform} {calendar : Calendar}
    {view : ErrorView} {jobs : CronJobs} (scheduledTime : Z) (s : Store) : Store :=
  match cron_jobs scheduledTime s with
  | (Ok _, s') => s'
  | (Throw e, s') => logCronError e scheduledTime s'
  end.

(** ** Notions used to state further properties *)

(** The name of the binding that [verifyHMAC] reads as the secret of an
    agent: [agentConfig.secret], which is [undefined] for an inherited
    property. *)
Definition secret_binding (agentId : string) : string :=
  match AGENT_CONFIG_get agentId with
  | own config => secret config
  | _ => "undefined"
  end.

(** The text that [verifyHMAC] signs. *)
Definition signed_message (agentId timestamp body : string) : string :=
  agentId +:+ ":" +:+ timestamp +:+ ":" +:+ body.

(** The window check of [verifyHMAC] lets the timestamp through. *)
Definition within_window (now : Z) (timestamp : string) : Prop :=
  JS.gt (JS.abs (JS.sub (JS.Num now) (JS.parseInt timestamp))) (JS.Num 300) = false.

(** Every message sent to the queue names a row of [agent_tasks]. *)
Definition queue_backed (w : World) : Prop :=
  forall m, m ∈ JOBS_QUEUE w ->
    exists t, t ∈ agentTasks w ∧ Task.id t = QueueMessage.taskId m.

(** A character that [Buffer.from(s, 'hex')] reads as a hex digit. *)
Definition is_hex_digit (c : ascii) : bool :=
  match JS.digit_value c with
  | Some d => d <? 16
  | None => false
  end.

(** A string made of pairs of hex digits. *)
Fixpoint hex_pairs (s : string) : bool :=
  match s with
  | EmptyString => true
  | String a (String b r) => is_hex_digit a && is_hex_digit b && hex_pairs r
  | String _ EmptyString => false
  end.

(** The event is the answer of the consumer to the message. *)
Definition answers (m : Message.t) (e : Event) : Prop :=
  e = ack (Message.id m) ∨ e = retry (Message.id m).

(** The total of [count] over the rows filed under a key. *)
Definition count_for (errorKey : string) (rows : list ErrorSignature.t) : Z :=
  foldr (fun r n => ErrorSignature.count r + n) 0
    (List.filter (ErrorSignature_key_is errorKey) rows).

Module Fixture.

Definition calendar : Calendar :=
  {| toISOString := fun _ => "2025-01-05T02:00:00.000Z" |}.

Definition view : ErrorView :=
  {| error_name := fun _ => "Error";
     error_stack := fun _ => None |}.

(** Jobs that do nothing, but for a daily report that behaves as told. *)
Definition jobs (report : Job) : CronJobs :=
  {| generateDailyReport := report;
     captureAnalyticsSnapshot := fun s => (Ok tt, s);
     checkUptime := fun s => (Ok tt, s) |}.



End Fixture.

(** * Properties *)

(** ** The request window of [verifyHMAC] *)

Section Window.

Context {crypto : Crypto}.

Lemma falsy_Some (s : string) : s ≠ "" -> JS.falsy (Some s) = false.
Proof. intros Hs. unfold JS.falsy. by apply bool_decide_eq_false. Qed.

(** The part of the middleware after the window check never answers that
    the request is stale. *)
Lemma verifyHMAC_agent_not_stale env agentId timestamp signature body :
  verifyHMAC_agent env agentId timestamp signature body ≠ Respond StaleRequest.
Proof.
  unfold verifyHMAC_agent.
  destruct (AGENT_CONFIG_get agentId); try discriminate;
    destruct (JS.falsy _); try discriminate;
    destruct (_ || _); discriminate.
Qed.

(** With the three headers present, the middleware is the window check
    followed by the rest. *)
Lemma verifyHMAC_present env now agentId timestamp signature body :
  agentId ≠ "" -> timestamp ≠ "" -> signature ≠ "" ->
  verifyHMAC env now (Some agentId) (Some timestamp) (Some signature) body =
  if JS.gt (JS.abs (JS.sub (JS.Num now) (JS.parseInt timestamp))) (JS.Num 300)
  then Respond StaleRequest
  else verifyHMAC_agent env agentId timestamp signature body.
Proof.
  intros Ha Ht Hs. unfold verifyHMAC.
  rewrite !falsy_Some by assumption. reflexivity.
Qed.

(** C6. The window check is inclusive at its bound: a request whose
    timestamp is exactly 300 seconds away from [now] passes the staleness
    check (the middleware goes on with the lookup of the agent and does not
    answer [StaleRequest]); at 301 seconds it is answered [StaleRequest]. *)
Theorem verifyHMAC_window_boundary env now agentId timestamp signature body t :
  agentId ≠ "" -> timestamp ≠ "" -> signature ≠ "" ->
  JS.parseInt timestamp = JS.Num t ->
  (Z.abs (now - t) = 300 ->
     verifyHMAC env now (Some agentId) (Some timestamp) (Some signature) body
       = verifyHMAC_agent env agentId timestamp signature body
     ∧ verifyHMAC env now (Some agentId) (Some timestamp) (Some signature) body
       ≠ Respond StaleRequest)
  ∧ (Z.abs (now - t) = 301 ->
     verifyHMAC env now (Some agentId) (Some timestamp) (Some signature) body
       = Respond StaleRequest).
Proof.
  intros Ha Ht Hs Hparse.
  rewrite verifyHMAC_present by assumption.
  rewrite Hparse. cbn [JS.sub JS.abs JS.gt].
  split; intros Hd; rewrite Hd.
  - split; [reflexivity | apply verifyHMAC_agent_not_stale].
  - reflexivity.
Qed.

(** C9. A timestamp header that is present but does not parse as a number
    is not caught by the staleness check: the comparison with [NaN] is
    false, and the middleware goes on with the lookup of the agent and the
    verification of the signature. *)
Theorem verifyHMAC_NaN_timestamp_passes_window env now agentId timestamp signature body :
  agentId ≠ "" -> timestamp ≠ "" -> signature ≠ "" ->
  JS.parseInt timestamp = JS.NaN ->
  JS.gt (JS.abs (JS.sub (JS.Num now) (JS.parseInt timestamp))) (JS.Num 300) = false
  ∧ verifyHMAC env now (Some agentId) (Some timestamp) (Some signature) body
    = verifyHMAC_agent env agentId timestamp signature body
  ∧ verifyHMAC env now (Some agentId) (Some timestamp) (Some signature) body
    ≠ Respond StaleRequest.
Proof.
  intros Ha Ht Hs Hparse.
  rewrite verifyHMAC_present by assumption.
  rewrite Hparse. cbn [JS.sub JS.abs JS.gt].
  repeat split. apply verifyHMAC_agent_not_stale.
Qed.

End Window.

(** The boundary on a request of [ContentAgent] stamped 1700000000, read at
    1700000300 and at 1700000301. *)
Lemma verifyHMAC_window_boundary_witness :
  (verifyHMAC (crypto := Sample.crypto) Sample.env 1700000300
     (Some "ContentAgent") (Some "1700000000") (Some "00") "{}"
   = verifyHMAC_agent (crypto := Sample.crypto) Sample.env
       "ContentAgent" "1700000000" "00" "{}"
   ∧ verifyHMAC (crypto := Sample.crypto) Sample.env 1700000300
       (Some "ContentAgent") (Some "1700000000") (Some "00") "{}"
     ≠ Respond StaleRequest)
  ∧ verifyHMAC (crypto := Sample.crypto) Sample.env 1700000301
      (Some "ContentAgent") (Some "1700000000") (Some "00") "{}"
    = Respond StaleRequest.
Proof.
  split.
  - apply (verifyHMAC_window_boundary (crypto := Sample.crypto) Sample.env
             1700000300 "ContentAgent" "1700000000" "00" "{}" 1700000000);
      [discriminate | discriminate | discriminate | reflexivity | reflexivity].
  - apply (verifyHMAC_window_boundary (crypto := Sample.crypto) Sample.env
             1700000301 "ContentAgent" "1700000000" "00" "{}" 1700000000);
      [discriminate | discriminate | discriminate | reflexivity | reflexivity].
Defined.

(** The timestamp [yesterday] is not a number and is not found stale. *)
Lemma verifyHMAC_NaN_timestamp_passes_window_witness :
  JS.parseInt "yesterday" = JS.NaN
  ∧ verifyHMAC (crypto := Sample.crypto) Sample.env 1700000000
      (Some "ContentAgent") (Some "yesterday") (Some "00") "{}"
    ≠ Respond StaleRequest.
Proof.
  split; [reflexivity |].
  apply (verifyHMAC_NaN_timestamp_passes_window (crypto := Sample.crypto) Sample.env
           1700000000 "ContentAgent" "yesterday" "00" "{}");
    [discriminate | discriminate | discriminate | reflexivity].
Defined.

(** ** Rows and updates *)

Lemma update_where_twice {A : Type} (cond : A -> bool) (set1 set2 : A -> A) (rows : list A) :
  (forall r, cond (set1 r) = cond r) ->
  update_where cond set2 (update_where cond set1 rows)
  = update_where cond (fun r => set2 (set1 r)) rows.
Proof.
  intros Hcond. unfold update_where. rewrite <- list_fmap_compose.
  apply list_fmap_ext. intros i r _. simpl.
  destruct (cond r) eqn:Hr.
  - by rewrite Hcond, Hr.
  - by rewrite Hr.
Qed.

(** A property that relates every row to its updated or untouched
    version relates the table to the updated table. *)
Lemma update_where_rows {A : Type} (R : A -> A -> Prop) (cond : A -> bool)
    (set : A -> A) (rows : list A) :
  (forall r, R r (if cond r then set r else r)) ->
  Forall2 R rows (update_where cond set rows).
Proof.
  intros HR. unfold update_where.
  induction rows as [| r rows IH]; constructor; auto.
Qed.

Lemma Task_id_is_running taskId at_ t :
  Task_id_is taskId (Task_set_running at_ t) = Task_id_is taskId t.
Proof. reflexivity. Qed.

Lemma Task_id_is_true taskId t : Task_id_is taskId t = true <-> Task.id t = taskId.
Proof. unfold Task_id_is. apply String.eqb_eq. Qed.

(** Rows that keep [attempts] and [maxAttempts] keep the bound. *)
Lemma budget_kept (rows rows' : list Task.t) :
  Forall2 (fun t t' =>
             Task.attempts t' = Task.attempts t
             ∧ Task.maxAttempts t' = Task.maxAttempts t) rows rows' ->
  Forall (fun t => Task.attempts t <= Task.maxAttempts t) rows ->
  Forall (fun t => Task.attempts t <= Task.maxAttempts t) rows'.
Proof.
  induction 1 as [| t t' ts ts' [Ha Hm] _ IH]; intros Hle; [constructor |].
  inversion Hle; subst. constructor; [lia | auto].
Qed.

(** ** Steps of the monad *)

Lemma bind_new_Date {platform : Platform} {A : Type} (k : Z -> M A) (w : World) :
  (new_Date ≫= k) w = k (Date_at (ticks w)) (tick w).
Proof. reflexivity. Qed.

Lemma bind_nanoid {platform : Platform} {A : Type} (k : string -> M A) (w : World) :
  (nanoid ≫= k) w = k (nanoid_at (ticks w)) (tick w).
Proof. reflexivity. Qed.

Lemma bind_get_world {A : Type} (k : World -> M A) (w : World) :
  (get_world ≫= k) w = k w w.
Proof. reflexivity. Qed.

(** ** The queue consumer *)

Section Consumer.

Context {platform : Platform}.

Ltac run :=
  unfold handleQueueMessage, processMessage, call_handler, try_catch,
    message_ack, message_retry, new_Date, modify, mbind, M_bind, mret, M_ret;
  cbn [fst snd].

(** C10. A message whose type matches none of the registered handlers runs
    no handler: [processMessage] returns normally, nothing but the task's
    row changes, the row is marked [completed] with [completedAt] set
    (its [result] and [error] stay as they were), and the consumer
    acknowledges the message. *)
Theorem unknown_task_type_completes (message : Message.t) (w : World) :
  handler_of (QueueMessage.type (Message.body message)) = None ->
  exists w1 w',
    processMessage (Message.body message) w = (Ok tt, w1)
    ∧ handleQueueMessage message w = (Ok tt, w')
    ∧ kpiSnapshots w1 = kpiSnapshots w
    ∧ CONFIG_KV w1 = CONFIG_KV w
    ∧ JOBS_QUEUE w1 = JOBS_QUEUE w
    ∧ agentChanges w1 = agentChanges w
    ∧ featureFlags w1 = featureFlags w
    ∧ Forall2 (fun t t' =>
         if Task_id_is (QueueMessage.taskId (Message.body message)) t
         then Task.status t' = Task.completed
              ∧ is_Some (Task.completedAt t')
              ∧ Task.result t' = Task.result t
              ∧ Task.error t' = Task.error t
              ∧ Task.attempts t' = Task.attempts t
         else t' = t)
         (agentTasks w) (agentTasks w1)
    ∧ agentTasks w' = agentTasks w1
    ∧ events w' = events w ++ [ack (Message.id message)].
Proof.
  intros Hnone. run. rewrite Hnone. cbn.
  eexists _, _. do 2 (split; [reflexivity |]). cbn.
  repeat (split; [reflexivity |]).
  split; [| split; reflexivity].
  rewrite update_where_twice by apply Task_id_is_running.
  apply update_where_rows. intros t.
  destruct (Task_id_is _ t); [| reflexivity].
  cbn. eauto 10.
Qed.

(** The consumer never writes [attempts] or [maxAttempts]. *)
Lemma handleQueueMessage_budget (message : Message.t) (w : World) :
  Forall2 (fun t t' =>
             Task.id t' = Task.id t
             ∧ Task.attempts t' = Task.attempts t
             ∧ Task.maxAttempts t' = Task.maxAttempts t)
    (agentTasks w) (agentTasks (handleQueueMessage message w).2).
Proof.
  run.
  destruct (handler_of _) as [h |]; cbn;
    [destruct (stored _); destruct (thrown _); cbn;
     try destruct (bool_decide _); cbn |];
    rewrite ?update_where_twice by reflexivity;
    apply update_where_rows;
    intros row; destruct (Task_id_is _ row); cbn; auto.
Qed.

Lemma handleQueueBatch_budget (batch : list Message.t) (w : World) :
  Forall2 (fun t t' =>
             Task.id t' = Task.id t
             ∧ Task.attempts t' = Task.attempts t
             ∧ Task.maxAttempts t' = Task.maxAttempts t)
    (agentTasks w) (agentTasks (handleQueueBatch batch w).2).
Proof.
  revert w. induction batch as [| message batch IH]; intros w.
  - cbn. apply Forall_Forall2_diag, Forall_true. auto.
  - unfold handleQueueBatch. cbn [for_of]. unfold mbind, M_bind at 1.
    pose proof (handleQueueMessage_budget message w) as Hstep.
    destruct (handleQueueMessage message w) as [[[] | e] w1]; cbn [snd] in *.
    + eapply Forall2_trans; [| exact Hstep | apply IH].
      intros t1 t2 t3 (? & ? & ?) (? & ? & ?). repeat split; congruence.
    + exact Hstep.
Qed.

(** C2, as the code has it. When the handler of a dispatched message
    fails, the consumer leaves [attempts] and [maxAttempts] of every task
    as they were, marks the task of the message [failed], with the error
    text and [completedAt] stored (when the message names a task), and
    asks the queue to retry the message, whatever [attempts] and
    [maxAttempts] are. Hence [attempts <= maxAttempts] is kept. *)
Theorem failed_handler_marks_failed_and_retries
    (message : Message.t) (w : World) (h : Handler) (e : Thrown) :
  handler_of (QueueMessage.type (Message.body message)) = Some h ->
  thrown (run_handler h (Message.body message) (S (ticks w))) = Some e ->
  exists w',
    handleQueueMessage message w = (Ok tt, w')
    ∧ events w' = events w ++ [retry (Message.id message)]
    ∧ Forall2 (fun t t' =>
         Task.id t' = Task.id t
         ∧ Task.attempts t' = Task.attempts t
         ∧ Task.maxAttempts t' = Task.maxAttempts t
         ∧ (Task.id t = QueueMessage.taskId (Message.body message) ->
            QueueMessage.taskId (Message.body message) ≠ "" ->
            Task.status t' = Task.failed
            ∧ Task.error t' = Some (error_text e)
            ∧ is_Some (Task.completedAt t')))
         (agentTasks w) (agentTasks w')
    ∧ (Forall (fun t => Task.attempts t <= Task.maxAttempts t) (agentTasks w) ->
       Forall (fun t => Task.attempts t <= Task.maxAttempts t) (agentTasks w')).
Proof.
  intros Hsome Hthrown.
  run. rewrite Hsome. cbn. rewrite Hthrown.
  destruct (stored _); destruct (bool_decide_reflect
    (QueueMessage.taskId (Message.body message) = "")) as [Hid | Hid]; cbn;
    eexists; (split; [reflexivity |]); (split; [reflexivity |]); cbn;
    match goal with
    | |- ?rows ∧ _ =>
        assert (Hrows : rows);
        [| split; [exact Hrows | eapply budget_kept, Forall2_impl; [exact Hrows |];
                                 cbn; intros ?? (_ & ? & ? & _); auto]]
    end;
    rewrite ?update_where_twice by reflexivity;
    apply update_where_rows; intros row;
    destruct (Task_id_is _ row) eqn:Ht; cbn;
    do 3 (split; [reflexivity |]); intros Heq Hne;
    try (apply Task_id_is_true in Heq; congruence);
    try congruence; eauto.
Qed.

End Consumer.

(** A task of the unregistered type [bogus] is completed and its message
    acknowledged. *)
Lemma unknown_task_type_completes_witness :
  exists w1 w',
    processMessage (platform := Sample.platform Sample.succeeds)
      (Message.body (Sample.message_for "m1" (Sample.task "t1" "bogus" 0 None)))
      (Sample.world_of_tasks [Sample.task "t1" "bogus" 0 None]) = (Ok tt, w1)
    ∧ handleQueueMessage (platform := Sample.platform Sample.succeeds)
        (Sample.message_for "m1" (Sample.task "t1" "bogus" 0 None))
        (Sample.world_of_tasks [Sample.task "t1" "bogus" 0 None]) = (Ok tt, w')
    ∧ events w' = [ack "m1"].
Proof.
  destruct (unknown_task_type_completes (platform := Sample.platform Sample.succeeds)
              (Sample.message_for "m1" (Sample.task "t1" "bogus" 0 None))
              (Sample.world_of_tasks [Sample.task "t1" "bogus" 0 None])
              eq_refl)
    as (w1 & w' & H1 & H2 & _ & _ & _ & _ & _ & _ & _ & Hev).
  exists w1, w'. auto.
Defined.

(** A [send_email] task whose handler throws: the message is retried. *)
Lemma failed_handler_marks_failed_and_retries_witness :
  exists w',
    handleQueueMessage (platform := Sample.platform (Sample.fails "Email send failed: Bad Gateway"))
      (Sample.message_for "m1" (Sample.task "t1" "send_email" 0 None))
      (Sample.world_of_tasks [Sample.task "t1" "send_email" 0 None]) = (Ok tt, w')
    ∧ events w' = [retry "m1"].
Proof.
  destruct (failed_handler_marks_failed_and_retries
              (platform := Sample.platform (Sample.fails "Email send failed: Bad Gateway"))
              (Sample.message_for "m1" (Sample.task "t1" "send_email" 0 None))
              (Sample.world_of_tasks [Sample.task "t1" "send_email" 0 None])
              sendEmailTask (ErrorObject "Email send failed: Bad Gateway")
              eq_refl eq_refl)
    as (w' & H1 & Hev & _).
  exists w'. auto.
Defined.

(** C2, as the specification has it, fails on the code. For a fresh task
    ([attempts = 0], [maxAttempts = 3]) whose handler throws, the consumer
    leaves [attempts] at 0 and marks the task [failed], where the
    specification wants [attempts = 1] and the task back to [pending].
    For a task on its last attempt ([attempts = 2]) the consumer still asks
    for a retry, where the specification wants no redelivery. *)
Lemma retry_policy_counterexample :
  (exists t',
     agentTasks
       (handleQueueBatch (platform := Sample.platform (Sample.fails "Email send failed: Bad Gateway"))
          [Sample.message_for "m1" (Sample.task "t1" "send_email" 0 None)]
          (Sample.world_of_tasks [Sample.task "t1" "send_email" 0 None])).2 = [t']
     ∧ Task.attempts t' = 0
     ∧ Task.status t' = Task.failed
     ∧ ¬ Spec_on_failure (Sample.task "t1" "send_email" 0 None) t' true)
  ∧ (exists t',
       agentTasks
         (handleQueueBatch (platform := Sample.platform (Sample.fails "Email send failed: Bad Gateway"))
            [Sample.message_for "m1" (Sample.task "t1" "send_email" 2 None)]
            (Sample.world_of_tasks [Sample.task "t1" "send_email" 2 None])).2 = [t']
       ∧ Task.attempts t' = 2
       ∧ events
           (handleQueueBatch (platform := Sample.platform (Sample.fails "Email send failed: Bad Gateway"))
              [Sample.message_for "m1" (Sample.task "t1" "send_email" 2 None)]
              (Sample.world_of_tasks [Sample.task "t1" "send_email" 2 None])).2
         = [retry "m1"]
       ∧ ¬ Spec_on_failure (Sample.task "t1" "send_email" 2 None) t' true).
Proof.
  split.
  - eexists. split; [reflexivity |]. split; [reflexivity |]. split; [reflexivity |].
    intros [Hattempts _]. cbn in Hattempts. discriminate.
  - eexists. split; [reflexivity |]. split; [reflexivity |]. split; [reflexivity |].
    intros [Hattempts _]. cbn in Hattempts. discriminate.
Qed.

(** ** The sweep of scheduled tasks *)

Section Sweep.

Context {platform : Platform}.

Lemma swept_nil now rows : swept now [] rows = rows.
Proof.
  unfold swept. induction rows as [| r rows IH]; [reflexivity |].
  cbn. f_equal. exact IH.
Qed.

Lemma swept_cons now task selected rows :
  swept now selected (update_where (Task_id_is (Task.id task)) (Task_set_running now) rows)
  = swept now (task :: selected) rows.
Proof.
  unfold swept, update_where. rewrite <- list_fmap_compose.
  apply list_fmap_ext. intros _ r _. cbn.
  destruct (Task_id_is (Task.id task) r) eqn:Hr.
  - apply Task_id_is_true in Hr. cbn [Task_set_running Task.id].
    rewrite (bool_decide_eq_true_2 (Task.id r ∈ Task.id task :: (Task.id <$> selected)))
      by (rewrite Hr; apply list_elem_of_here).
    destruct (bool_decide _); reflexivity.
  - assert (Hne : Task.id r ≠ Task.id task).
    { intros Heq. apply Task_id_is_true in Heq. congruence. }
    destruct (bool_decide_reflect (Task.id r ∈ Task.id <$> selected)) as [Hin | Hin].
    + rewrite bool_decide_eq_true_2 by (by apply list_elem_of_further). reflexivity.
    + rewrite bool_decide_eq_false_2; [reflexivity |].
      intros [Heq | Hin']%elem_of_cons; [congruence | exact (Hin Hin')].
Qed.

(** The loop of the sweep over the selected tasks. *)
Lemma sweep_loop now (selected : list Task.t) (w : World) :
  for_of selected (fun task =>
    JOBS_QUEUE_send (message_of_task task) ;;
    modify (with_agentTasks
      (update_where (Task_id_is (Task.id task)) (Task_set_running now)))) w
  = (Ok tt,
     mkWorld (agentChanges w) (swept now selected (agentTasks w)) (featureFlags w)
       (kpiSnapshots w) (CONFIG_KV w)
       (JOBS_QUEUE w ++ (message_of_task <$> selected)) (events w) (ticks w)).
Proof.
  revert w. induction selected as [| task selected IH]; intros w.
  - cbn. rewrite swept_nil, app_nil_r. by destruct w.
  - cbn [for_of]. unfold mbind, M_bind at 1.
    unfold JOBS_QUEUE_send, modify, mbind, M_bind at 1. cbn [fst snd].
    rewrite IH. cbn. rewrite swept_cons, <- app_assoc. reflexivity.
Qed.

Lemma scheduledTasks_due now rows :
  Forall (fun t => is_due now t = true) (scheduledTasks now rows).
Proof.
  unfold scheduledTasks. apply Forall_take.
  apply List.Forall_forall. intros t Hin. by apply List.filter_In in Hin as [_ ?].
Qed.

Lemma filter_sublist {A : Type} (f : A -> bool) (l : list A) :
  sublist (List.filter f l) l.
Proof.
  induction l as [| x l IH]; cbn; [constructor |].
  destruct (f x); by constructor.
Qed.

(** C8, as the code has it. A sweep reads the clock once and selects the
    first ten rows of the scan that are [pending] with
    [scheduledFor <= now], or all of them when fewer than ten are due: the
    due rows, in the order in which the table is scanned (no order by
    [scheduledFor] is asked for), are the selected rows followed by the
    rows left for a later sweep. The sweep sends one message per selected
    task, in that order, carrying the identifier, the agent, the type and
    the payload of the task, and sets the selected tasks [running] with
    [startedAt = now]; the other rows, and the other stores, are left as
    they were. *)
Theorem sweep_selects_bounded_batch_in_scan_order (w : World) :
  exists selected skipped w',
    processScheduledTasks w = (Ok tt, w')
    ∧ List.filter
        (fun t =>
           bool_decide (Task.status t = Task.pending)
           && match Task.scheduledFor t with
              | Some at_ => at_ <=? Date_at (ticks w)
              | None => false
              end)
        (agentTasks w)
      = selected ++ skipped
    ∧ length selected = Nat.min 10 (length (selected ++ skipped))
    ∧ scheduledTasks (Date_at (ticks w)) (agentTasks w) = selected
    ∧ (length selected <= 10)%nat
    ∧ Forall (fun t =>
                Task.status t = Task.pending
                ∧ exists at_, Task.scheduledFor t = Some at_ ∧ at_ <= Date_at (ticks w))
        selected
    ∧ sublist selected (agentTasks w)
    ∧ JOBS_QUEUE w'
      = JOBS_QUEUE w
        ++ ((fun t =>
               QueueMessage.mk (Task.id t) (Task.agentId t) (Task.type t)
                 (Task.payloadJson t)) <$> selected)
    ∧ agentTasks w'
      = (fun t =>
           if bool_decide (Task.id t ∈ Task.id <$> selected)
           then
             Task.mk (Task.id t) (Task.agentId t) (Task.type t) (Task.payloadJson t)
               Task.running (Task.priority t) (Task.attempts t) (Task.maxAttempts t)
               (Task.result t) (Task.error t) (Task.scheduledFor t)
               (Some (Date_at (ticks w))) (Task.completedAt t) (Task.createdAt t)
               (Task.updatedAt t)
           else t) <$> agentTasks w
    ∧ Forall (fun t => Task_set_running (Date_at (ticks w)) t ∈ agentTasks w') selected
    ∧ agentChanges w' = agentChanges w
    ∧ featureFlags w' = featureFlags w
    ∧ kpiSnapshots w' = kpiSnapshots w
    ∧ CONFIG_KV w' = CONFIG_KV w
    ∧ events w' = events w.
Proof.
  unfold processScheduledTasks. rewrite bind_new_Date, bind_get_world, sweep_loop.
  remember (Date_at (ticks w)) as now eqn:Hnow.
  exists (take 10 (List.filter (is_due now) (agentTasks w))),
         (drop 10 (List.filter (is_due now) (agentTasks w))).
  eexists. split; [reflexivity |].
  cbn [JOBS_QUEUE agentTasks agentChanges featureFlags kpiSnapshots CONFIG_KV events].
  split; [symmetry; apply take_drop |].
  split; [rewrite take_drop; apply length_take |].
  split; [reflexivity |].
  split; [rewrite length_take; lia |].
  split.
  { eapply Forall_impl; [apply scheduledTasks_due |].
    intros t Hdue. unfold is_due in Hdue.
    apply andb_prop in Hdue as [Hst Hat].
    apply bool_decide_eq_true in Hst. split; [exact Hst |].
    destruct (Task.scheduledFor t) as [at_ |]; [| discriminate].
    exists at_. split; [reflexivity | lia]. }
  split.
  { etransitivity; [apply sublist_take | apply filter_sublist]. }
  split; [reflexivity |]. split; [reflexivity |].
  split; [| repeat split].
  apply Forall_forall. intros t Hin.
  assert (Hrow : t ∈ agentTasks w).
  { eapply elem_of_sublist; [exact Hin |].
    etransitivity; [apply sublist_take | apply filter_sublist]. }
  unfold swept. apply list_elem_of_fmap. exists t. split; [| exact Hrow].
  rewrite bool_decide_eq_true_2; [reflexivity |].
  apply list_elem_of_fmap. by exists t.
Qed.

End Sweep.

(** C8, as the specification has it, fails on the code: of eleven due
    tasks the sweep sends the ten scanned first and leaves the one scanned
    last, although it is scheduled before all of them. *)
Lemma sweep_order_counterexample :
  QueueMessage.taskId
    <$> JOBS_QUEUE (processScheduledTasks (platform := Sample.platform Sample.succeeds)
                      (Sample.world_of_tasks Sample.backlog)).2
  = ["t0"; "t1"; "t2"; "t3"; "t4"; "t5"; "t6"; "t7"; "t8"; "t9"]
  ∧ last (agentTasks (processScheduledTasks (platform := Sample.platform Sample.succeeds)
                        (Sample.world_of_tasks Sample.backlog)).2)
    = Some (Sample.task "t10" "seo_audit" 0 (Some 1000))
  ∧ ¬ Spec_earliest_first 1700000000 Sample.backlog
        ["t0"; "t1"; "t2"; "t3"; "t4"; "t5"; "t6"; "t7"; "t8"; "t9"].
Proof.
  split; [reflexivity |]. split; [reflexivity |].
  intros Hspec.
  specialize (Hspec (Sample.task "t0" "seo_audit" 0 (Some 1010))
                    (Sample.task "t10" "seo_audit" 0 (Some 1000)) 1010 1000).
  assert (Hle : 1010 <= 1000); [| lia].
  apply Hspec; try reflexivity.
  - apply list_elem_of_here.
  - unfold Sample.backlog. do 10 apply list_elem_of_further. apply list_elem_of_here.
  - apply list_elem_of_here.
  - intros Hin. cbn in Hin.
    repeat (apply elem_of_cons in Hin as [Hin | Hin]; [discriminate |]).
    by apply elem_of_nil in Hin.
Qed.

(** ** Submissions *)

Section Submissions.

Context {crypto : Crypto} {platform : Platform}.

Ltac submit :=
  unfold post_proposals_content, post_flags, CURRENT_TIMESTAMP, CONFIG_KV_put;
  rewrite ?bind_nanoid.


(** A flag change with a sensitive key from an agent that is not low risk
    is recorded [high] and [pending]; the flag is not written. *)
Lemma post_flags_gated agentId riskLevel data w :
  riskLevel ≠ low ->
  isHighRisk (FlagChange.flagKey data) = true ->
  exists c r w',
    post_flags agentId riskLevel (success data) w = (Ok r, w')
    ∧ agentChanges w' = agentChanges w ++ [c]
    ∧ Change.action c = "flag_change"
    ∧ Change.agentId c = agentId
    ∧ Change.riskLevel c = high
    ∧ Change.status c = Change.pending
    ∧ only_agentChanges_differ w w'.
Proof.
  intros Hrisk Hkey. submit.
  rewrite Hkey, (bool_decide_eq_false_2 (riskLevel = low)) by exact Hrisk.
  do 3 eexists. split; [reflexivity |]. cbn.
  repeat split; reflexivity.
Qed.


(** The writes of [post_flags] that the store accepts, and those that it
    refuses, in terms of the request. *)
Lemma KV_accepts_request flagKey (ttl : option Z) :
  flagKey ≠ "" -> flagKey ≠ "." -> flagKey ≠ ".." ->
  JS.utf8_length flagKey <= 512 ->
  (forall n, ttl = Some n -> n = 0 ∨ 60 <= n) ->
  KV_accepts flagKey (ttl_option ttl) = true.
Proof.
  intros Hempty Hdot Hdots Hlength Httl. unfold KV_accepts, KV_key_ok.
  rewrite !(proj2 (String.eqb_neq _ _)) by assumption.
  rewrite (proj2 (Z.leb_le _ _) Hlength). cbn.
  destruct ttl as [n |]; [| reflexivity]. cbn.
  destruct (bool_decide_reflect (n = 0)) as [_ | Hn]; [reflexivity |]. cbn.
  destruct (Httl n eq_refl); [done | lia].
Qed.

Lemma KV_refuses_request flagKey (ttl : option Z) :
  flagKey = "" ∨ flagKey = "." ∨ flagKey = ".." ∨ 512 < JS.utf8_length flagKey
  ∨ (exists n, ttl = Some n ∧ n ≠ 0 ∧ n < 60) ->
  KV_accepts flagKey (ttl_option ttl) = false.
Proof.
  unfold KV_accepts, KV_key_ok.
  intros [-> | [-> | [-> | [Hlength | (n & -> & Hn & Hlt)]]]]; try reflexivity.
  - rewrite (proj2 (Z.leb_gt _ _) Hlength). by rewrite andb_false_r.
  - cbn. rewrite (bool_decide_eq_false_2 _ Hn). cbn.
    rewrite (proj2 (Z.leb_gt 60 n)) by exact Hlt. apply andb_false_r.
Qed.

(** [ttl ? { expirationTtl: ttl } : undefined] leaves out the [ttl] 0. *)
Lemma ttl_option_zero (ttl : option Z) :
  ttl_option ttl = if bool_decide (ttl = Some 0) then None else ttl.
Proof.
  destruct ttl as [n |]; [| reflexivity]. cbn.
  destruct (bool_decide_reflect (n = 0)) as [-> | Hn]; [reflexivity |].
  rewrite bool_decide_eq_false_2; [reflexivity | congruence].
Qed.

(** The direct path of [post_flags], taken in every other case, when the
    store refuses the write: the route throws, and nothing is written. *)
Lemma post_flags_refused agentId riskLevel data w :
  isHighRisk (FlagChange.flagKey data) && negb (bool_decide (riskLevel = low)) = false ->
  KV_accepts (FlagChange.flagKey data) (ttl_option (FlagChange.ttl data)) = false ->
  post_flags agentId riskLevel (success data) w
  = (Throw (ErrorObject "KV PUT failed"), tick w).
Proof.
  intros Hcond Hkv. submit. rewrite Hcond, Hkv. reflexivity.
Qed.

(** The direct path when the store accepts the write: the flag is
    written, and no Change is recorded. *)
Lemma post_flags_written agentId riskLevel data w :
  isHighRisk (FlagChange.flagKey data) && negb (bool_decide (riskLevel = low)) = false ->
  KV_accepts (FlagChange.flagKey data) (ttl_option (FlagChange.ttl data)) = true ->
  agentChanges (post_flags agentId riskLevel (success data) w).2 = agentChanges w
  ∧ CONFIG_KV (post_flags agentId riskLevel (success data) w).2
    = <[FlagChange.flagKey data :=
          mkKvEntry (JSON_stringify (FlagChange.value data))
            (ttl_option (FlagChange.ttl data))]> (CONFIG_KV w).
Proof.
  intros Hcond Hkv. submit. rewrite Hcond, Hkv.
  unfold featureFlags_insert. cbn.
  destruct (FlagChange.value data); split; reflexivity.
Qed.




(** C4, as the code has it. A flag change whose key is sensitive is
    recorded with [riskLevel = high] and [status = pending] when the agent
    is not low risk, and the flag is not written. From a low-risk agent no
    Change is recorded and the write of the flag is attempted within the
    submission: the flag is written when the key has 512 bytes at most and
    the [ttl] is absent, zero or at least 60 (a sensitive key is neither
    empty nor [.] nor [..]), and when the store refuses the key or the
    [ttl] the route throws and nothing is written. *)
Theorem sensitive_flag_change agentId data w :
  isHighRisk (FlagChange.flagKey data) = true ->
  (forall riskLevel,
      riskLevel ≠ low ->
      exists c r w',
        post_flags agentId riskLevel (success data) w = (Ok r, w')
        ∧ agentChanges w' = agentChanges w ++ [c]
        ∧ Change.riskLevel c = high
        ∧ Change.status c = Change.pending
        ∧ CONFIG_KV w' = CONFIG_KV w)
  ∧ agentChanges (post_flags agentId low (success data) w).2 = agentChanges w
  ∧ (JS.utf8_length (FlagChange.flagKey data) <= 512 ->
     (forall n, FlagChange.ttl data = Some n -> n = 0 ∨ 60 <= n) ->
     CONFIG_KV (post_flags agentId low (success data) w).2
     = <[FlagChange.flagKey data :=
           mkKvEntry (JSON_stringify (FlagChange.value data))
             (if bool_decide (FlagChange.ttl data = Some 0)
              then None
              else FlagChange.ttl data)]> (CONFIG_KV w))
  ∧ (512 < JS.utf8_length (FlagChange.flagKey data)
     ∨ (exists n, FlagChange.ttl data = Some n ∧ n ≠ 0 ∧ n < 60) ->
     exists e w',
       post_flags agentId low (success data) w = (Throw e, w')
       ∧ CONFIG_KV w' = CONFIG_KV w
       ∧ featureFlags w' = featureFlags w).
Proof.
  intros Hkey.
  assert (Hcond : isHighRisk (FlagChange.flagKey data)
                  && negb (bool_decide (low = low)) = false)
    by apply andb_false_r.
  split; [| split; [| split]].
  - intros riskLevel Hrisk.
    destruct (post_flags_gated agentId riskLevel data w Hrisk Hkey)
      as (c & r & w' & ? & ? & _ & _ & ? & ? & Hsame).
    exists c, r, w'. repeat split; try assumption. apply Hsame.
  - destruct (KV_accepts (FlagChange.flagKey data) (ttl_option (FlagChange.ttl data)))
      eqn:Hkv.
    + by destruct (post_flags_written agentId low data w Hcond Hkv).
    + by rewrite (post_flags_refused agentId low data w Hcond Hkv).
  - intros Hlength Httl.
    assert (Hkv : KV_accepts (FlagChange.flagKey data) (ttl_option (FlagChange.ttl data))
                  = true).
    { apply KV_accepts_request; [intros Heq; rewrite Heq in Hkey; discriminate ..
                                | exact Hlength | exact Httl]. }
    destruct (post_flags_written agentId low data w Hcond Hkv) as [_ Hwritten].
    by rewrite Hwritten, ttl_option_zero.
  - intros Hrefused.
    assert (Hkv : KV_accepts (FlagChange.flagKey data) (ttl_option (FlagChange.ttl data))
                  = false)
      by (apply KV_refuses_request; tauto).
    rewrite (post_flags_refused agentId low data w Hcond Hkv).
    by do 2 eexists.
Qed.

End Submissions.



(** The key [prod.critical.flag], from a medium-risk and from a low-risk
    agent. *)
Lemma sensitive_flag_change_witness :
  isHighRisk "prod.critical.flag" = true
  ∧ (exists c r w',
       post_flags (crypto := Sample.crypto) (platform := Sample.platform Sample.succeeds)
         "ContentAgent" medium (success (Sample.flag "prod.critical.flag"))
         Sample.empty_world = (Ok r, w')
       ∧ agentChanges w' = [c]
       ∧ Change.riskLevel c = high
       ∧ Change.status c = Change.pending)
  ∧ agentChanges
      (post_flags (crypto := Sample.crypto) (platform := Sample.platform Sample.succeeds)
         "SEOAgent" low (success (Sample.flag "prod.critical.flag"))
         Sample.empty_world).2
    = []
  ∧ CONFIG_KV
      (post_flags (crypto := Sample.crypto) (platform := Sample.platform Sample.succeeds)
         "SEOAgent" low (success (Sample.flag "prod.critical.flag"))
         Sample.empty_world).2
    = <["prod.critical.flag" := mkKvEntry "true" None]> ∅.
Proof.
  destruct (sensitive_flag_change (crypto := Sample.crypto)
              (platform := Sample.platform Sample.succeeds)
              "ContentAgent" (Sample.flag "prod.critical.flag") Sample.empty_world eq_refl)
    as (Hgated & _).
  destruct (sensitive_flag_change (crypto := Sample.crypto)
              (platform := Sample.platform Sample.succeeds)
              "SEOAgent" (Sample.flag "prod.critical.flag") Sample.empty_world eq_refl)
    as (_ & Hledger & Hwritten & _).
  split; [reflexivity |]. split; [| split].
  - destruct (Hgated medium) as (c & r0 & w0 & ? & ? & ? & ? & _); [discriminate |].
    by exists c, r0, w0.
  - exact Hledger.
  - apply Hwritten; [apply Z.leb_le; reflexivity | discriminate].
Defined.

(** C4, as the specification has it, fails on the code: [SEOAgent], of low
    risk, submits a change of the flag [production.maintenance_mode]; no
    Change is recorded, and the flag is written. *)
Lemma sensitive_flag_low_risk_counterexample :
  List.find (fun kv => String.eqb (fst kv) "SEOAgent") AGENT_CONFIG
  = Some ("SEOAgent", mkAgentConfig "SEOAGENT_API_KEY" low)
  ∧ isHighRisk "production.maintenance_mode" = true
  ∧ agentChanges
      (post_flags (crypto := Sample.crypto) (platform := Sample.platform Sample.succeeds)
         "SEOAgent" low (success (Sample.flag "production.maintenance_mode"))
         Sample.empty_world).2
    = []
  ∧ CONFIG_KV
      (post_flags (crypto := Sample.crypto) (platform := Sample.platform Sample.succeeds)
         "SEOAgent" low (success (Sample.flag "production.maintenance_mode"))
         Sample.empty_world).2 !! "production.maintenance_mode"
    = Some (mkKvEntry "true" None)
  ∧ ¬ Spec_recorded_high_pending Sample.empty_world
        (post_flags (crypto := Sample.crypto) (platform := Sample.platform Sample.succeeds)
           "SEOAgent" low (success (Sample.flag "production.maintenance_mode"))
           Sample.empty_world).2.
Proof.
  split; [reflexivity |]. split; [reflexivity |]. split; [reflexivity |].
  split; [apply lookup_insert_eq |].
  intros (c & Hc & _). cbn in Hc. discriminate.
Qed.

(** C5 on the code. [SEOAgent], of low risk, submits a content proposal.
    The answer says that the pull request was created, but the submission
    runs no executor: the Change is recorded [approved] and stays so,
    without [executedAt] and without [error], and nothing else is written.
    The same proposal from [ContentAgent], held [pending] and then
    approved by a reviewer, goes through [executeAgentChange] and ends
    [executed]. *)
Theorem low_risk_proposal_runs_no_executor :
  List.find (fun kv => String.eqb (fst kv) "SEOAgent") AGENT_CONFIG
  = Some ("SEOAgent", mkAgentConfig "SEOAGENT_API_KEY" low)
  ∧ (exists c r w',
       post_proposals_content (crypto := Sample.crypto)
         (platform := Sample.platform Sample.succeeds)
         "SEOAgent" low (success Sample.proposal) Sample.empty_world
       = (Ok r, w')
       ∧ JS.get "status" (json r) = Some (JS.JStr "approved")
       ∧ JS.get "message" (json r)
         = Some (JS.JStr "Content proposal auto-approved and PR created")
       ∧ agentChanges w' = [c]
       ∧ Change.status c = Change.approved
       ∧ Change.executedAt c = None
       ∧ Change.error c = None
       ∧ only_agentChanges_differ Sample.empty_world w'
       ∧ ¬ Spec_auto_executed c)
  ∧ (exists c,
       agentChanges
         (approve (crypto := Sample.crypto) (platform := Sample.platform Sample.succeeds)
            "id-0"
            (post_proposals_content (crypto := Sample.crypto)
               (platform := Sample.platform Sample.succeeds)
               "ContentAgent" medium (success Sample.proposal) Sample.empty_world).2).2
       = [c]
       ∧ Change.id c = "id-0"
       ∧ Change.status c = Change.executed
       ∧ is_Some (Change.executedAt c)).
Proof.
  split; [reflexivity |]. split.
  - do 3 eexists. split; [reflexivity |]. cbn.
    repeat (split; [reflexivity |]).
    split; [repeat split |].
    intros [Hexecuted | [_ [e He]]]; discriminate.
  - eexists. split; [reflexivity |]. cbn. eauto.
Qed.

(** ** Human decisions *)

Section Decisions.

Context {crypto : Crypto} {platform : Platform}.



(** Rejecting always answers 200 and rewrites every row that has the
    identifier, whatever its status. *)
Lemma reject_unguarded changeId reason w :
  reject changeId reason w
  = (Ok (c_json [("message", JS.JStr "Change rejected"); ("id", JS.JStr changeId)] 200),
     with_agentChanges
       (update_where (Change_id_is changeId)
          (Change_set_rejected "admin" (Date_at (ticks w)) reason))
       (tick w)).
Proof. reflexivity. Qed.

(** An update that matches no row leaves the table as it was; so
    rejecting an unknown Change leaves the ledger as it was. *)
Lemma update_where_no_match {A : Type} (cond : A -> bool) (set : A -> A) (rows : list A) :
  List.filter cond rows = [] -> update_where cond set rows = rows.
Proof.
  unfold update_where. induction rows as [| r rows IH]; [reflexivity |].
  cbn. destruct (cond r); [discriminate |].
  intros Hrest. f_equal. exact (IH Hrest).
Qed.

Lemma reject_unknown_keeps_ledger changeId reason w :
  List.filter (Change_id_is changeId) (agentChanges w) = [] ->
  agentChanges (reject changeId reason w).2 = agentChanges w.
Proof.
  intros Hnone. rewrite reject_unguarded. cbn.
  by apply update_where_no_match.
Qed.

End Decisions.

(** C3 on the code. A second decision on a decided Change is refused by
    [approve], but not by [reject]: on a Change that is [executed],
    [reject] answers 200 and overwrites [status], [approvedAt] and
    [error]. *)
Theorem reject_overwrites_decided_change :
  approve (crypto := Sample.crypto) (platform := Sample.platform Sample.succeeds)
    "c1" (Sample.world_of_changes [Sample.executed_change])
  = (Ok AlreadyDecided, Sample.world_of_changes [Sample.executed_change])
  ∧ exists w',
      reject (platform := Sample.platform Sample.succeeds)
        "c1" "too late" (Sample.world_of_changes [Sample.executed_change])
      = (Ok (c_json [("message", JS.JStr "Change rejected"); ("id", JS.JStr "c1")] 200), w')
      ∧ c_json [("message", JS.JStr "Change rejected"); ("id", JS.JStr "c1")] 200
        ≠ AlreadyDecided
      ∧ Change.status <$> agentChanges w' = [Change.rejected]
      ∧ Change.approvedAt <$> agentChanges w' = [Some 1700000000]
      ∧ Change.error <$> agentChanges w' = [Some "too late"]
      ∧ Change.executedAt <$> agentChanges w' = [Some 1699990001].
Proof.
  split; [reflexivity |].
  eexists. split; [reflexivity |]. split; [discriminate |].
  repeat split; reflexivity.
Qed.

(** C7 on the code. A decision on an unknown Change is answered
    [NotFound] by [approve], but not by [reject], which answers 200; in
    both cases the ledger is left as it was. *)
Theorem reject_unknown_change_answers_ok :
  approve (crypto := Sample.crypto) (platform := Sample.platform Sample.succeeds)
    "missing" (Sample.world_of_changes [Sample.executed_change])
  = (Ok NotFound, Sample.world_of_changes [Sample.executed_change])
  ∧ exists w',
      reject (platform := Sample.platform Sample.succeeds)
        "missing" "no such change" (Sample.world_of_changes [Sample.executed_change])
      = (Ok (c_json [("message", JS.JStr "Change rejected"); ("id", JS.JStr "missing")] 200),
         w')
      ∧ c_json [("message", JS.JStr "Change rejected"); ("id", JS.JStr "missing")] 200
        ≠ NotFound
      ∧ agentChanges w' = [Sample.executed_change].
Proof.
  split; [reflexivity |].
  eexists. split; [reflexivity |]. split; [discriminate |]. reflexivity.
Qed.

(** * Further properties *)

(** ** The answers of [verifyHMAC] *)

Section Authentication.

Context {crypto : Crypto}.

(** What the part of the middleware after the window check can answer. *)
Lemma verifyHMAC_agent_cases env agentId timestamp signature body :
  verifyHMAC_agent env agentId timestamp signature body = Respond UnknownAgent
  ∨ verifyHMAC_agent env agentId timestamp signature body = Respond ConfigurationError
  ∨ verifyHMAC_agent env agentId timestamp signature body = Respond InvalidSignature
  ∨ exists risk, verifyHMAC_agent env agentId timestamp signature body
                 = Next agentId risk body.
Proof.
  unfold verifyHMAC_agent.
  destruct (AGENT_CONFIG_get agentId); auto;
    destruct (JS.falsy _); auto;
    destruct (_ || _); eauto 10.
Qed.

(** A request with a header absent or empty is answered
    [MissingCredentials]. *)
Lemma verifyHMAC_missing_header env now a t s body :
  JS.falsy a = true ∨ JS.falsy t = true ∨ JS.falsy s = true ->
  verifyHMAC env now a t s body = Respond MissingCredentials.
Proof.
  intros Hmissing. unfold verifyHMAC.
  destruct (JS.falsy a), (JS.falsy t), (JS.falsy s); try reflexivity.
  destruct Hmissing as [? | [? | ?]]; discriminate.
Qed.

(** X1. The middleware answers [MissingCredentials] exactly when one of the
    three headers is absent or empty. *)
Theorem verifyHMAC_missing_iff env now a t s body :
  verifyHMAC env now a t s body = Respond MissingCredentials
  <-> JS.falsy a = true ∨ JS.falsy t = true ∨ JS.falsy s = true.
Proof.
  unfold verifyHMAC.
  destruct (JS.falsy a), (JS.falsy t), (JS.falsy s); cbn [orb];
    try (split; [intros _; auto | reflexivity]).
  split; [| intros [? | [? | ?]]; discriminate].
  destruct (JS.gt _ _); [discriminate |].
  intros Hr.
  destruct (verifyHMAC_agent_cases env (default "" a) (default "" t) (default "" s) body)
    as [Hc | [Hc | [Hc | [risk Hc]]]]; rewrite Hc in Hr; discriminate.
Qed.

(** X2. The window is symmetric: with the headers present, the middleware
    answers [StaleRequest] exactly when the timestamp parses as a number
    that is more than 300 seconds before or after [now]. *)
Theorem verifyHMAC_stale_iff env now agentId timestamp signature body :
  agentId ≠ "" -> timestamp ≠ "" -> signature ≠ "" ->
  (verifyHMAC env now (Some agentId) (Some timestamp) (Some signature) body
   = Respond StaleRequest
   <-> exists t, JS.parseInt timestamp = JS.Num t ∧ (t < now - 300 ∨ now + 300 < t)).
Proof.
  intros Ha Ht Hs. rewrite verifyHMAC_present by assumption.
  destruct (JS.parseInt timestamp) as [t |]; cbn [JS.sub JS.abs JS.gt].
  - destruct (Z.ltb_spec 300 (Z.abs (now - t))) as [Hlt | Hle].
    + split; [intros _; exists t; split; [reflexivity | lia] | reflexivity].
    + split.
      * intros Hr. by apply verifyHMAC_agent_not_stale in Hr.
      * intros (t' & [= <-] & Hout). lia.
  - split.
    + intros Hr. by apply verifyHMAC_agent_not_stale in Hr.
    + intros (t' & Hnum & _). discriminate.
Qed.

Lemma AGENT_CONFIG_get_undefined agentId :
  AGENT_CONFIG_get agentId = undefined
  <-> agentId ∉ (fst <$> AGENT_CONFIG) ++ Object_prototype_keys.
Proof.
  unfold AGENT_CONFIG_get.
  destruct (List.find _ AGENT_CONFIG) as [kv |] eqn:Hfind.
  - split; [discriminate |]. intros Hnot. exfalso. apply Hnot.
    apply elem_of_app. left.
    apply List.find_some in Hfind as [Hin Heq].
    apply String.eqb_eq in Heq. subst agentId.
    apply list_elem_of_fmap. exists kv. split; [reflexivity |].
    by apply list_elem_of_In.
  - destruct (bool_decide_reflect (agentId ∈ Object_prototype_keys)) as [Hin | Hin].
    + split; [discriminate |]. intros Hnot. exfalso. apply Hnot.
      apply elem_of_app. by right.
    + split; [| reflexivity]. intros _ [Hcfg | Hproto]%elem_of_app; [| by apply Hin].
      apply list_elem_of_fmap in Hcfg as (kv & -> & Hkv).
      apply list_elem_of_In in Hkv.
      eapply List.find_none in Hfind; [| exact Hkv].
      cbn in Hfind. by rewrite String.eqb_refl in Hfind.
Qed.

(** X3. With the headers present and the timestamp within the window, the
    middleware answers [UnknownAgent] exactly when the agent identifier is
    neither a key of [AGENT_CONFIG] nor a name that the object inherits;
    the signature and the bindings play no part. *)
Theorem verifyHMAC_unknown_agent_iff env now agentId timestamp signature body :
  agentId ≠ "" -> timestamp ≠ "" -> signature ≠ "" ->
  within_window now timestamp ->
  (verifyHMAC env now (Some agentId) (Some timestamp) (Some signature) body
   = Respond UnknownAgent
   <-> agentId ∉ (fst <$> AGENT_CONFIG) ++ Object_prototype_keys).
Proof.
  intros Ha Ht Hs Hwin. rewrite verifyHMAC_present by assumption.
  unfold within_window in Hwin. rewrite Hwin.
  rewrite <- AGENT_CONFIG_get_undefined. unfold verifyHMAC_agent.
  destruct (AGENT_CONFIG_get agentId); try (split; [| reflexivity]; intros _; reflexivity);
    (split; [| discriminate]);
    destruct (JS.falsy _); try discriminate;
    destruct (_ || _); discriminate.
Qed.

(** X4. A known agent whose secret is not bound, or bound to the empty
    string, is answered 500 [ConfigurationError], whatever the signature. *)
Theorem verifyHMAC_secret_missing env now agentId timestamp signature body config :
  agentId ≠ "" -> timestamp ≠ "" -> signature ≠ "" ->
  within_window now timestamp ->
  AGENT_CONFIG_get agentId = own config ->
  JS.falsy (env !! secret config) = true ->
  verifyHMAC env now (Some agentId) (Some timestamp) (Some signature) body
  = Respond ConfigurationError.
Proof.
  intros Ha Ht Hs Hwin Hget Hsecret. rewrite verifyHMAC_present by assumption.
  unfold within_window in Hwin. rewrite Hwin.
  unfold verifyHMAC_agent. rewrite Hget, Hsecret. reflexivity.
Qed.

(** X5. An agent identifier that is a name inherited from [Object.prototype]
    (such as [constructor] or [toString]) is not answered [UnknownAgent]:
    the lookup finds the inherited property, and as no binding is named
    [undefined] the answer is 500 [ConfigurationError]. *)
Theorem verifyHMAC_inherited_name env now agentId timestamp signature body :
  timestamp ≠ "" -> signature ≠ "" ->
  within_window now timestamp ->
  agentId ∈ Object_prototype_keys ->
  env !! "undefined" = None ->
  verifyHMAC env now (Some agentId) (Some timestamp) (Some signature) body
  = Respond ConfigurationError.
Proof.
  intros Ht Hs Hwin Hin Hnone.
  assert (Ha : agentId ≠ "").
  { intros ->. revert Hin. unfold Object_prototype_keys.
    intros Hin. repeat (apply elem_of_cons in Hin as [Hin | Hin]; [discriminate |]).
    by apply elem_of_nil in Hin. }
  rewrite verifyHMAC_present by assumption.
  unfold within_window in Hwin. rewrite Hwin.
  assert (Hget : AGENT_CONFIG_get agentId = inherited).
  { unfold Object_prototype_keys in Hin.
    repeat (apply elem_of_cons in Hin as [-> | Hin]; [reflexivity |]).
    by apply elem_of_nil in Hin. }
  unfold verifyHMAC_agent. rewrite Hget, Hnone. reflexivity.
Qed.

(** X6. The middleware lets a request through only if the bytes decoded from
    its signature are the bytes of the keyed hash of
    [agentId:timestamp:body] under the bound secret; the context then
    holds the agent identifier of the header, the body as received, and
    the risk level configured for the agent. *)
Theorem verifyHMAC_sound env now a t s body agentId risk body' :
  verifyHMAC env now a t s body = Next agentId risk body' ->
  exists timestamp signature key,
    a = Some agentId ∧ t = Some timestamp ∧ s = Some signature ∧ body' = body
    ∧ agentId ≠ "" ∧ timestamp ≠ "" ∧ signature ≠ ""
    ∧ within_window now timestamp
    ∧ AGENT_CONFIG_get agentId ≠ undefined
    ∧ env !! secret_binding agentId = Some key ∧ key ≠ ""
    ∧ JS.Buffer_from_hex signature
      = JS.Buffer_from_hex (hmac_sha256_hex key (signed_message agentId timestamp body))
    ∧ forall config, AGENT_CONFIG_get agentId = own config -> risk = Some (riskLevel config).
Proof.
  intros Hnext.
  assert (Hpresent : JS.falsy a = false ∧ JS.falsy t = false ∧ JS.falsy s = false).
  { destruct (JS.falsy a) eqn:Hfa, (JS.falsy t) eqn:Hft, (JS.falsy s) eqn:Hfs; auto;
      exfalso;
      assert (Hmiss : verifyHMAC env now a t s body = Respond MissingCredentials)
        by (apply verifyHMAC_missing_header; rewrite ?Hfa, ?Hft, ?Hfs; auto);
      rewrite Hmiss in Hnext; discriminate. }
  destruct Hpresent as (Hfa & Hft & Hfs).
  destruct a as [a |]; [| discriminate].
  destruct t as [t |]; [| discriminate].
  destruct s as [s |]; [| discriminate].
  apply bool_decide_eq_false in Hfa, Hft, Hfs.
  rewrite verifyHMAC_present in Hnext by assumption.
  destruct (JS.gt _ _) eqn:Hwin; [discriminate |].
  unfold verifyHMAC_agent in Hnext. unfold secret_binding, signed_message.
  destruct (AGENT_CONFIG_get a) as [config | |] eqn:Hget; [| | discriminate];
    (destruct (env !! _) as [key |] eqn:Hkey; [| discriminate]);
    cbn [JS.falsy] in Hnext;
    (destruct (bool_decide_reflect (key = "")) as [| Hk]; [discriminate |]);
    change (default "" (Some key)) with key in Hnext;
    (destruct (bool_decide _) eqn:Hlen; [| discriminate]);
    (destruct (JS.timingSafeEqual _ _) eqn:Hsig; [| discriminate]);
    cbn [negb orb] in Hnext; injection Hnext as <- <- <-;
    apply bool_decide_eq_true in Hsig;
    exists t, s, key; rewrite ?Hget;
    (repeat (split; [first [assumption | reflexivity | discriminate] |]));
    intros c [= <-]; reflexivity.
Qed.

(** X7. A request of a configured agent that carries the keyed hash of
    [agentId:timestamp:body] under the bound secret, with a timestamp
    within the window, is let through with the agent's risk level. *)
Theorem verifyHMAC_accepts_expected_signature
    env now agentId timestamp body config key :
  agentId ≠ "" -> timestamp ≠ "" ->
  hmac_sha256_hex key (signed_message agentId timestamp body) ≠ "" ->
  within_window now timestamp ->
  AGENT_CONFIG_get agentId = own config ->
  env !! secret config = Some key -> key ≠ "" ->
  verifyHMAC env now (Some agentId) (Some timestamp)
    (Some (hmac_sha256_hex key (signed_message agentId timestamp body))) body
  = Next agentId (Some (riskLevel config)) body.
Proof.
  intros Ha Ht Hs Hwin Hget Hkey Hk. rewrite verifyHMAC_present by assumption.
  unfold within_window in Hwin. rewrite Hwin.
  unfold verifyHMAC_agent. rewrite Hget, Hkey. cbn [JS.falsy default].
  rewrite (bool_decide_eq_false_2 _ Hk). fold (signed_message agentId timestamp body).
  unfold JS.timingSafeEqual. rewrite !bool_decide_eq_true_2 by reflexivity.
  reflexivity.
Qed.

End Authentication.

(** The cases of the theorems above, on requests of [ContentAgent]. *)
Lemma verifyHMAC_stale_iff_witness :
  verifyHMAC (crypto := Sample.crypto) Sample.env 1700000000
    (Some "ContentAgent") (Some "1700000400") (Some "00") "{}"
  = Respond StaleRequest
  <-> exists t, JS.parseInt "1700000400" = JS.Num t
                ∧ (t < 1700000000 - 300 ∨ 1700000000 + 300 < t).
Proof.
  apply (verifyHMAC_stale_iff (crypto := Sample.crypto) Sample.env 1700000000
           "ContentAgent" "1700000400" "00" "{}"); discriminate.
Defined.

Lemma verifyHMAC_unknown_agent_iff_witness :
  verifyHMAC (crypto := Sample.crypto) Sample.env 1700000000
    (Some "BillingAgent") (Some "1700000000") (Some "00") "{}"
  = Respond UnknownAgent
  <-> "BillingAgent" ∉ (fst <$> AGENT_CONFIG) ++ Object_prototype_keys.
Proof.
  apply (verifyHMAC_unknown_agent_iff (crypto := Sample.crypto) Sample.env 1700000000
           "BillingAgent" "1700000000" "00" "{}");
    [discriminate | discriminate | discriminate | reflexivity].
Defined.

Lemma verifyHMAC_secret_missing_witness :
  verifyHMAC (crypto := Sample.crypto) Sample.env 1700000000
    (Some "OpsAgent") (Some "1700000000") (Some "00") "{}"
  = Respond ConfigurationError.
Proof.
  apply (verifyHMAC_secret_missing (crypto := Sample.crypto) Sample.env 1700000000
           "OpsAgent" "1700000000" "00" "{}" (mkAgentConfig "OPSAGENT_API_KEY" low));
    [discriminate | discriminate | discriminate | reflexivity | reflexivity | reflexivity].
Defined.

Lemma verifyHMAC_inherited_name_witness :
  verifyHMAC (crypto := Sample.crypto) Sample.env 1700000000
    (Some "constructor") (Some "1700000000") (Some "00") "{}"
  = Respond ConfigurationError.
Proof.
  apply (verifyHMAC_inherited_name (crypto := Sample.crypto) Sample.env 1700000000
           "constructor" "1700000000" "00" "{}");
    [discriminate | discriminate | reflexivity | apply list_elem_of_here | reflexivity].
Defined.

Lemma verifyHMAC_sound_witness :
  exists timestamp signature key,
    Sample.env !! secret_binding "ContentAgent" = Some key
    ∧ JS.Buffer_from_hex signature
      = JS.Buffer_from_hex
          (hmac_sha256_hex (Crypto := Sample.crypto) key
             (signed_message "ContentAgent" timestamp "{}")).
Proof.
  destruct (verifyHMAC_sound (crypto := Sample.crypto) Sample.env 1700000000
              (Some "ContentAgent") (Some "1700000000") (Some "00") "{}"
              "ContentAgent" (Some medium) "{}" eq_refl)
    as (timestamp & signature & key & _ & _ & _ & _ & _ & _ & _ & _ & _ & Hkey & _ & Hsig & _).
  by exists timestamp, signature, key.
Defined.

Lemma verifyHMAC_accepts_expected_signature_witness :
  verifyHMAC (crypto := Sample.crypto) Sample.env 1700000000
    (Some "ContentAgent") (Some "1700000000")
    (Some (hmac_sha256_hex (Crypto := Sample.crypto) "s3cret"
             (signed_message "ContentAgent" "1700000000" "{}"))) "{}"
  = Next "ContentAgent" (Some medium) "{}".
Proof.
  apply (verifyHMAC_accepts_expected_signature (crypto := Sample.crypto) Sample.env
           1700000000 "ContentAgent" "1700000000" "{}"
           (mkAgentConfig "CONTENTAGENT_API_KEY" medium) "s3cret");
    [discriminate | discriminate | discriminate | reflexivity | reflexivity
    | reflexivity | discriminate].
Defined.

(** ** Text primitives *)

Lemma prefix_append (n s : string) :
  String.prefix n s = true <-> exists post, s = n +:+ post.
Proof.
  revert s. induction n as [| a n IH]; intros s.
  - split; [intros _; by exists s | intros _; by destruct s].
  - destruct s as [| b s]; cbn; [split; [discriminate | intros [post [=]]] |].
    destruct (ascii_dec a b) as [<- | Hne].
    + rewrite IH. split; intros [post Hpost]; exists post; [by rewrite Hpost | by injection Hpost].
    + split; [discriminate |]. intros [post [= Hab _]]. congruence.
Qed.

(** [s.includes(needle)] holds exactly when [needle] occurs in [s]. *)
Lemma includes_occurs (s needle : string) :
  JS.includes s needle = true <-> exists pre post, s = pre +:+ needle +:+ post.
Proof.
  induction s as [| c s IH]; cbn [JS.includes].
  - rewrite orb_false_r, prefix_append. split.
    + intros [post Hpost]. by exists "", post.
    + intros (pre & post & Hs). destruct pre; [by exists post |]. discriminate.
  - rewrite orb_true_iff, prefix_append, IH. split.
    + intros [[post Hpost] | (pre & post & Hs)].
      * by exists "", post.
      * exists (String c pre), post. by rewrite Hs.
    + intros (pre & post & Hs). destruct pre as [| c' pre].
      * left. by exists post.
      * right. injection Hs as _ Hs. by exists pre, post.
Qed.

(** X9. The route of the flags holds a key to be sensitive exactly when the
    text [production] or the text [critical] occurs in it, in that
    spelling. *)
Theorem isHighRisk_occurs (flagKey : string) :
  isHighRisk flagKey = true
  <-> exists pre post,
        flagKey = pre +:+ "production" +:+ post ∨ flagKey = pre +:+ "critical" +:+ post.
Proof.
  unfold isHighRisk. rewrite orb_true_iff, !includes_occurs. split.
  - intros [(pre & post & H) | (pre & post & H)]; exists pre, post; auto.
  - intros (pre & post & [H | H]); [left | right]; by exists pre, post.
Qed.

Lemma Buffer_from_hex_trailing (s : string) (c : ascii) (rest : string) :
  hex_pairs s = true -> is_hex_digit c = false ->
  JS.Buffer_from_hex (s +:+ String c rest) = JS.Buffer_from_hex s.
Proof.
  intros Hs Hc.
  assert (Hboth :
    (hex_pairs s = true ->
     JS.Buffer_from_hex (s +:+ String c rest) = JS.Buffer_from_hex s)
    ∧ (forall a, hex_pairs (String a s) = true ->
       JS.Buffer_from_hex (String a s +:+ String c rest)
       = JS.Buffer_from_hex (String a s))).
  { clear Hs. induction s as [| b s [IH0 IH1]].
    - split; [| intros a; discriminate]. intros _.
      unfold is_hex_digit in Hc.
      destruct rest as [| d rest]; [reflexivity |].
      change (JS.Buffer_from_hex (String c (String d rest)) = JS.Buffer_from_hex "").
      cbn [JS.Buffer_from_hex].
      destruct (JS.digit_value c) as [x |]; [| reflexivity].
      destruct (JS.digit_value d); [| reflexivity].
      by rewrite Hc.
    - split; [intros Hp; by apply IH1 |].
      intros a Hp. cbn in Hp.
      apply andb_prop in Hp as [Hab Hp]. apply andb_prop in Hab as [Ha Hb].
      unfold is_hex_digit in Ha, Hb.
      change (JS.Buffer_from_hex (String a (String b (s +:+ String c rest)))
              = JS.Buffer_from_hex (String a (String b s))).
      cbn [JS.Buffer_from_hex].
      destruct (JS.digit_value a) as [x |]; [| discriminate].
      destruct (JS.digit_value b) as [y |]; [| discriminate].
      rewrite Ha, Hb. cbn [andb]. f_equal. by apply IH0. }
  by apply Hboth.
Qed.

(** X8. A signature made of hex digit pairs is accepted or refused all the
    same when text that starts with a character that is not a hex digit
    is added after it: decoding stops at that character. *)
Theorem verifyHMAC_ignores_trailing_text
    {crypto : Crypto} env now a t signature c rest body :
  signature ≠ "" ->
  hex_pairs signature = true ->
  is_hex_digit c = false ->
  verifyHMAC env now a t (Some (signature +:+ String c rest)) body
  = verifyHMAC env now a t (Some signature) body.
Proof.
  intros Hne Hhex Hc. unfold verifyHMAC.
  rewrite (falsy_Some signature) by exact Hne.
  rewrite (falsy_Some (signature +:+ String c rest))
    by (destruct signature; [congruence | discriminate]).
  destruct (_ || _); [reflexivity |].
  cbn [from_option]. unfold id.
  destruct (JS.gt _ _); [reflexivity |].
  unfold verifyHMAC_agent. rewrite Buffer_from_hex_trailing by assumption.
  reflexivity.
Qed.

Lemma verifyHMAC_ignores_trailing_text_witness :
  verifyHMAC (crypto := Sample.crypto) Sample.env 1700000000
    (Some "ContentAgent") (Some "1700000000") (Some "00;drop") "{}"
  = verifyHMAC (crypto := Sample.crypto) Sample.env 1700000000
      (Some "ContentAgent") (Some "1700000000") (Some "00") "{}".
Proof.
  apply (verifyHMAC_ignores_trailing_text (crypto := Sample.crypto) Sample.env
           1700000000 (Some "ContentAgent") (Some "1700000000") "00" ";" "drop" "{}");
    [discriminate | reflexivity | reflexivity].
Defined.

(** ** More on the queue consumer *)

Section ConsumerMore.

Context {platform : Platform}.

Ltac consume :=
  unfold handleQueueMessage, processMessage, call_handler, try_catch,
    message_ack, message_retry, new_Date, modify, mbind, M_bind, mret, M_ret;
  cbn [fst snd].

(** Whatever the handler does, the consumer answers a message with one
    acknowledgement or one retry request, and returns normally. *)
Lemma handleQueueMessage_answers (message : Message.t) (w : World) :
  exists w' e,
    handleQueueMessage message w = (Ok tt, w')
    ∧ events w' = events w ++ [e]
    ∧ answers message e
    ∧ JOBS_QUEUE w' = JOBS_QUEUE w
    ∧ agentChanges w' = agentChanges w
    ∧ CONFIG_KV w' = CONFIG_KV w
    ∧ featureFlags w' = featureFlags w.
Proof.
  consume. unfold answers.
  destruct (handler_of _) as [h |]; cbn;
    [destruct (stored _); destruct (thrown _); cbn;
     try destruct (bool_decide _); cbn |];
    eexists _, _; (split; [reflexivity |]); cbn; (split; [reflexivity |]);
    (split; [auto |]); repeat split.
Qed.

(** X15. A batch is handled to its end, whatever the handlers do: every
    message of the batch is answered by exactly one acknowledgement or
    retry request, in the order of the batch, and no failure of a handler
    leaves the consumer. *)
Theorem handleQueueBatch_answers_each_message (batch : list Message.t) (w : World) :
  exists w' answered,
    handleQueueBatch batch w = (Ok tt, w')
    ∧ events w' = events w ++ answered
    ∧ Forall2 answers batch answered
    ∧ JOBS_QUEUE w' = JOBS_QUEUE w
    ∧ agentChanges w' = agentChanges w
    ∧ CONFIG_KV w' = CONFIG_KV w.
Proof.
  revert w. induction batch as [| message batch IH]; intros w.
  - exists w, []. cbn. rewrite app_nil_r. repeat split. constructor.
  - destruct (handleQueueMessage_answers message w)
      as (w1 & e & Hrun & Hev & Hans & Hq & Hc & Hkv & _).
    destruct (IH w1) as (w' & answered & Hrest & Hev' & Hall & Hq' & Hc' & Hkv').
    exists w', (e :: answered).
    unfold handleQueueBatch in *. cbn [for_of]. unfold mbind, M_bind at 1.
    rewrite Hrun, Hrest. split; [reflexivity |].
    rewrite Hev', Hev, <- app_assoc. split; [reflexivity |].
    split; [by constructor |].
    repeat split; congruence.
Qed.

(** The consumer sends nothing to the queue. *)
Lemma handleQueueBatch_queue (batch : list Message.t) (w : World) :
  JOBS_QUEUE (handleQueueBatch batch w).2 = JOBS_QUEUE w.
Proof.
  revert w. induction batch as [| message batch IH]; intros w; [reflexivity |].
  destruct (handleQueueMessage_answers message w) as (w1 & e & Hrun & _ & _ & Hq & _).
  unfold handleQueueBatch in *. cbn [for_of]. unfold mbind, M_bind at 1.
  rewrite Hrun. by rewrite IH.
Qed.

(** X16. When the handler of a message returns normally, the rows it made for
    [kpi_snapshots] are added, the task of the message is marked
    [completed] with [startedAt] and [completedAt] set and the result of
    the handler stored (the old result is kept when the handler stores
    none), and the message is acknowledged. *)
Theorem successful_handler_completes (message : Message.t) (w : World) (h : Handler) :
  handler_of (QueueMessage.type (Message.body message)) = Some h ->
  thrown (run_handler h (Message.body message) (S (ticks w))) = None ->
  exists w',
    handleQueueMessage message w = (Ok tt, w')
    ∧ events w' = events w ++ [ack (Message.id message)]
    ∧ kpiSnapshots w'
      = kpiSnapshots w ++ kpis (run_handler h (Message.body message) (S (ticks w)))
    ∧ Forall2 (fun t t' =>
         if Task_id_is (QueueMessage.taskId (Message.body message)) t
         then Task.status t' = Task.completed
              ∧ is_Some (Task.startedAt t')
              ∧ is_Some (Task.completedAt t')
              ∧ Task.result t'
                = match stored (run_handler h (Message.body message) (S (ticks w))) with
                  | Some result => Some result
                  | None => Task.result t
                  end
              ∧ Task.error t' = Task.error t
              ∧ Task.attempts t' = Task.attempts t
         else t' = t)
         (agentTasks w) (agentTasks w').
Proof.
  intros Hsome Hok. consume. rewrite Hsome. cbn. rewrite Hok.
  destruct (stored _); cbn;
    eexists; (split; [reflexivity |]); cbn; (do 2 (split; [reflexivity |]));
    rewrite ?update_where_twice by reflexivity;
    apply update_where_rows; intros row;
    destruct (Task_id_is _ row); cbn; eauto 10.
Qed.

(** A message that names no row of [agent_tasks] leaves the table as it
    was, whatever its handler does. *)
Lemma handleQueueMessage_no_row (message : Message.t) (w : World) :
  List.filter (Task_id_is (QueueMessage.taskId (Message.body message))) (agentTasks w) = [] ->
  agentTasks (handleQueueMessage message w).2 = agentTasks w.
Proof.
  intros Hnone. consume.
  destruct (handler_of _) as [h |]; cbn;
    [destruct (stored _); destruct (thrown _); cbn;
     try destruct (bool_decide _); cbn |];
    rewrite ?(update_where_no_match _ _ _ Hnone); reflexivity.
Qed.

(** X17. A batch whose messages name no row of [agent_tasks] leaves the table
    as it was, whatever the handlers do, on success and on failure. *)
Theorem consumer_without_row (batch : list Message.t) (w : World) :
  Forall (fun message =>
            List.filter (Task_id_is (QueueMessage.taskId (Message.body message)))
              (agentTasks w) = [])
    batch ->
  agentTasks (handleQueueBatch batch w).2 = agentTasks w.
Proof.
  revert w. induction batch as [| message batch IH]; intros w Hnone; [reflexivity |].
  apply Forall_cons in Hnone as [Hfirst Hrest].
  pose proof (handleQueueMessage_no_row message w Hfirst) as Hsame.
  destruct (handleQueueMessage_answers message w) as (w1 & e & Hrun & _).
  unfold handleQueueBatch in *. cbn [for_of]. unfold mbind, M_bind at 1.
  rewrite Hrun in *. cbn [snd] in Hsame.
  rewrite IH; [exact Hsame |].
  eapply Forall_impl; [exact Hrest |]. cbn. intros m Hm. by rewrite Hsame.
Qed.

(** X18. After a message that names a task has been handled, the rows of that
    task are [completed] or [failed]: never left [running], and never
    [pending], so that no sweep sends them again. *)
Theorem handled_task_is_terminal (message : Message.t) (w : World) :
  QueueMessage.taskId (Message.body message) ≠ "" ->
  Forall (fun t =>
            Task.id t = QueueMessage.taskId (Message.body message) ->
            (Task.status t = Task.completed ∨ Task.status t = Task.failed)
            ∧ forall now, is_due now t = false)
    (agentTasks (handleQueueMessage message w).2).
Proof.
  intros Hid. consume.
  assert (Hlast : forall (set : Task.t -> Task.t) rows,
    (forall r, Task.id (set r) = Task.id r) ->
    (forall r, Task.status (set r) = Task.completed ∨ Task.status (set r) = Task.failed) ->
    Forall (fun t =>
              Task.id t = QueueMessage.taskId (Message.body message) ->
              (Task.status t = Task.completed ∨ Task.status t = Task.failed)
              ∧ forall now, is_due now t = false)
      (update_where (Task_id_is (QueueMessage.taskId (Message.body message))) set rows)).
  { intros set rows Hsame Hstatus. unfold update_where.
    apply Forall_fmap, Forall_forall. intros r _. cbn.
    destruct (Task_id_is _ r) eqn:Hr.
    - intros _. split; [apply Hstatus |]. intros now. unfold is_due.
      destruct (Hstatus r) as [-> | ->]; reflexivity.
    - intros Heq. apply Task_id_is_true in Heq. congruence. }
  destruct (handler_of _) as [h |]; cbn;
    [destruct (stored _); destruct (thrown _); cbn |];
    rewrite ?(bool_decide_eq_false_2 _ Hid); cbn;
    apply Hlast; intros r; cbn; auto.
Qed.

End ConsumerMore.

Lemma successful_handler_completes_witness :
  exists w',
    handleQueueMessage (platform := Sample.platform Sample.succeeds)
      (Sample.message_for "m1" (Sample.task "t1" "send_email" 0 None))
      (Sample.world_of_tasks [Sample.task "t1" "send_email" 0 None]) = (Ok tt, w')
    ∧ events w' = [ack "m1"]
    ∧ Task.status <$> agentTasks w' = [Task.completed].
Proof.
  destruct (successful_handler_completes (platform := Sample.platform Sample.succeeds)
              (Sample.message_for "m1" (Sample.task "t1" "send_email" 0 None))
              (Sample.world_of_tasks [Sample.task "t1" "send_email" 0 None])
              sendEmailTask eq_refl eq_refl)
    as (w' & Hrun & Hev & _).
  exists w'. split; [exact Hrun |]. split; [exact Hev |].
  injection Hrun as <-. reflexivity.
Defined.

Lemma consumer_without_row_witness :
  agentTasks
    (handleQueueBatch (platform := Sample.platform Sample.succeeds)
       [Sample.message_for "m1" (Sample.task "t9" "seo_audit" 0 None)]
       (Sample.world_of_tasks [Sample.task "t1" "send_email" 0 None])).2
  = [Sample.task "t1" "send_email" 0 None].
Proof.
  apply (consumer_without_row (platform := Sample.platform Sample.succeeds)
           [Sample.message_for "m1" (Sample.task "t9" "seo_audit" 0 None)]
           (Sample.world_of_tasks [Sample.task "t1" "send_email" 0 None])).
  repeat constructor.
Defined.

Lemma handled_task_is_terminal_witness :
  Forall (fun t =>
            Task.id t = "t1" ->
            (Task.status t = Task.completed ∨ Task.status t = Task.failed)
            ∧ forall now, is_due now t = false)
    (agentTasks
       (handleQueueMessage (platform := Sample.platform (Sample.fails "boom"))
          (Sample.message_for "m1" (Sample.task "t1" "send_email" 0 (Some 5)))
          (Sample.world_of_tasks [Sample.task "t1" "send_email" 0 (Some 5)])).2).
Proof.
  apply (handled_task_is_terminal (platform := Sample.platform (Sample.fails "boom"))
           (Sample.message_for "m1" (Sample.task "t1" "send_email" 0 (Some 5)))
           (Sample.world_of_tasks [Sample.task "t1" "send_email" 0 (Some 5)])).
  discriminate.
Defined.

(** ** More on the sweep and on the queue *)

Section QueueMore.

Context {platform : Platform}.

Lemma processScheduledTasks_run (w : World) :
  processScheduledTasks w
  = (Ok tt,
     mkWorld (agentChanges w)
       (swept (Date_at (ticks w)) (scheduledTasks (Date_at (ticks w)) (agentTasks w))
          (agentTasks w))
       (featureFlags w) (kpiSnapshots w) (CONFIG_KV w)
       (JOBS_QUEUE w
        ++ (message_of_task <$> scheduledTasks (Date_at (ticks w)) (agentTasks w)))
       (events w) (S (ticks w))).
Proof.
  unfold processScheduledTasks. rewrite bind_new_Date, bind_get_world, sweep_loop.
  reflexivity.
Qed.

Lemma swept_ids now selected rows :
  Task.id <$> swept now selected rows = Task.id <$> rows.
Proof.
  unfold swept. rewrite <- list_fmap_compose. apply list_fmap_ext.
  intros _ r _. cbn. by destruct (bool_decide _).
Qed.

(** X14. Two sweeps in a row never send the same task: what the second sweep
    selects, at whatever time it runs, has an identifier that the first
    did not select. *)
Theorem consecutive_sweeps_disjoint (w : World) (later : Z) :
  Forall (fun t =>
            Task.id t ∉ Task.id <$> scheduledTasks (Date_at (ticks w)) (agentTasks w))
    (scheduledTasks later (agentTasks (processScheduledTasks w).2)).
Proof.
  rewrite processScheduledTasks_run.
  remember (scheduledTasks (Date_at (ticks w)) (agentTasks w)) as selected eqn:Hselected.
  cbn [snd agentTasks].
  apply Forall_forall. intros t Hin.
  assert (Hdue : is_due later t = true).
  { pose proof (scheduledTasks_due later
                  (swept (Date_at (ticks w)) selected (agentTasks w))) as Hall.
    rewrite Forall_forall in Hall. by apply Hall. }
  eapply elem_of_sublist in Hin;
    [| unfold scheduledTasks; etransitivity; [apply sublist_take | apply filter_sublist]].
  unfold swept in Hin. apply list_elem_of_fmap in Hin as (r & Ht & _).
  destruct (bool_decide_reflect (Task.id r ∈ Task.id <$> selected)) as [_ | Hnot];
    subst t.
  - unfold is_due in Hdue. cbn [Task.status Task_set_running] in Hdue.
    rewrite bool_decide_eq_false_2 in Hdue by discriminate. discriminate.
  - exact Hnot.
Qed.

Lemma post_tasks_run agentId data (w : World) :
  post_tasks agentId (success data) w
  = (Ok (c_json [("id", JS.JStr (nanoid_at (ticks w)));
                 ("status", JS.JStr "queued");
                 ("message", JS.JStr "Task queued for processing")] 200),
     mkWorld (agentChanges w)
       (agentTasks w
        ++ [Task.mk (nanoid_at (ticks w)) agentId (TaskRequest.type data)
              (TaskRequest.payload data) Task.pending (TaskRequest.priority data) 0 3
              None None (TaskRequest.scheduledFor data) None None
              (Date_at (S (ticks w))) (Date_at (S (ticks w)))])
       (featureFlags w) (kpiSnapshots w) (CONFIG_KV w)
       (JOBS_QUEUE w
        ++ [QueueMessage.mk (nanoid_at (ticks w)) agentId
              (TaskRequest.type data) (TaskRequest.payload data)])
       (events w) (S (S (ticks w)))).
Proof. reflexivity. Qed.

(** X13. A task submitted with [scheduledFor] has its message sent at
    submission; if a sweep then runs at or after [scheduledFor], with
    fewer than ten due tasks before it in the scan, the same message is
    sent a second time. *)
Theorem scheduled_task_is_sent_twice agentId data at_ (w : World) :
  TaskRequest.scheduledFor data = Some at_ ->
  at_ <= Date_at (S (S (ticks w))) ->
  (length (List.filter (is_due (Date_at (S (S (ticks w))))) (agentTasks w)) < 10)%nat ->
  JOBS_QUEUE (processScheduledTasks (post_tasks agentId (success data) w).2).2
  = JOBS_QUEUE w
    ++ [QueueMessage.mk (nanoid_at (ticks w)) agentId
          (TaskRequest.type data) (TaskRequest.payload data)]
    ++ (message_of_task <$> List.filter (is_due (Date_at (S (S (ticks w))))) (agentTasks w))
    ++ [QueueMessage.mk (nanoid_at (ticks w)) agentId
          (TaskRequest.type data) (TaskRequest.payload data)].
Proof.
  intros Hat Hle Hfew. rewrite processScheduledTasks_run, post_tasks_run.
  cbn [snd JOBS_QUEUE agentTasks ticks].
  unfold scheduledTasks. rewrite List.filter_app. cbn [List.filter].
  unfold is_due at 2. cbn [Task.status Task.scheduledFor]. rewrite Hat.
  rewrite bool_decide_eq_true_2 by reflexivity.
  rewrite (proj2 (Z.leb_le _ _) Hle). cbn [andb].
  rewrite take_ge by (rewrite length_app; cbn [length]; lia).
  rewrite fmap_app, <- !app_assoc. reflexivity.
Qed.

(** X10. The submission of a task writes the row before it sends the
    message, and the two agree: the message is the one that a sweep would
    build from the row, the answer carries the identifier of the row, and
    the row starts [pending] with no attempt made and three allowed. The
    ledger and the flags are left as they were. *)
Theorem post_tasks_enqueues agentId data (w : World) :
  exists t r w',
    post_tasks agentId (success data) w = (Ok r, w')
    ∧ agentTasks w' = agentTasks w ++ [t]
    ∧ JOBS_QUEUE w' = JOBS_QUEUE w ++ [message_of_task t]
    ∧ JS.get "id" (json r) = Some (JS.JStr (Task.id t))
    ∧ code r = 200
    ∧ Task.agentId t = agentId
    ∧ Task.status t = Task.pending
    ∧ Task.attempts t = 0
    ∧ Task.maxAttempts t = 3
    ∧ Task.priority t = TaskRequest.priority data
    ∧ Task.scheduledFor t = TaskRequest.scheduledFor data
    ∧ agentChanges w' = agentChanges w
    ∧ CONFIG_KV w' = CONFIG_KV w.
Proof.
  unfold post_tasks, CURRENT_TIMESTAMP, JOBS_QUEUE_send.
  rewrite bind_nanoid, bind_new_Date.
  do 3 eexists. split; [reflexivity |]. cbn. repeat split; reflexivity.
Qed.

Lemma queue_backed_ids (w : World) :
  queue_backed w
  <-> forall m, m ∈ JOBS_QUEUE w -> QueueMessage.taskId m ∈ Task.id <$> agentTasks w.
Proof.
  unfold queue_backed. split; intros Hq m Hm.
  - destruct (Hq m Hm) as (t & Ht & <-). apply list_elem_of_fmap. by exists t.
  - pose proof (Hq m Hm) as Hin.
    apply list_elem_of_fmap in Hin as (t & -> & Ht). by exists t.
Qed.

Lemma Forall2_same_ids (rows rows' : list Task.t) :
  Forall2 (fun t t' =>
             Task.id t' = Task.id t
             ∧ Task.attempts t' = Task.attempts t
             ∧ Task.maxAttempts t' = Task.maxAttempts t) rows rows' ->
  Task.id <$> rows' = Task.id <$> rows.
Proof.
  induction 1 as [| t t' ts ts' (Hid & _) _ IH]; [reflexivity |].
  cbn. by rewrite Hid, IH.
Qed.

(** X11. The queue stays backed by the table: if every message sent so far
    names a row of [agent_tasks], this still holds after a submission of a
    task, after a sweep, and after the consumer has handled a batch. *)
Theorem queue_backed_preserved (w : World) :
  queue_backed w ->
  (forall agentId result, queue_backed (post_tasks agentId result w).2)
  ∧ queue_backed (processScheduledTasks w).2
  ∧ (forall batch, queue_backed (handleQueueBatch batch w).2).
Proof.
  intros Hq0. pose proof (proj1 (queue_backed_ids w) Hq0) as Hq. split; [| split].
  - intros agentId [data | details]; [| exact Hq0].
    rewrite post_tasks_run. cbn [snd]. apply (proj2 (queue_backed_ids _)).
    cbn [JOBS_QUEUE agentTasks].
    intros m [Hm | ->%list_elem_of_singleton]%elem_of_app; rewrite fmap_app;
      apply elem_of_app; [left; by apply Hq | right; apply list_elem_of_here].
  - rewrite processScheduledTasks_run. cbn [snd]. apply (proj2 (queue_backed_ids _)).
    cbn [JOBS_QUEUE agentTasks]. rewrite swept_ids.
    intros m [Hm | Hm]%elem_of_app; [by apply Hq |].
    apply list_elem_of_fmap in Hm as (t & -> & Ht). cbn.
    apply list_elem_of_fmap. exists t. split; [reflexivity |].
    eapply elem_of_sublist; [exact Ht |].
    unfold scheduledTasks. etransitivity; [apply sublist_take | apply filter_sublist].
  - intros batch. apply (proj2 (queue_backed_ids _)).
    pose proof (handleQueueBatch_budget batch w) as Hids.
    apply Forall2_same_ids in Hids.
    rewrite handleQueueBatch_queue, Hids. exact Hq.
Qed.

(** X12. The route of the SEO audit sends a message and writes no row: with a
    fresh identifier the queue is then no longer backed by the table, and
    when the consumer handles that message no row of [agent_tasks]
    changes, so the outcome of the audit is recorded in no task. *)
Theorem seo_audit_message_has_no_row agentId body (w : World) :
  List.filter (Task_id_is (nanoid_at (ticks w))) (agentTasks w) = [] ->
  exists r w1,
    post_seo_audit agentId body w = (Ok r, w1)
    ∧ code r = 200
    ∧ agentTasks w1 = agentTasks w
    ∧ JOBS_QUEUE w1
      = JOBS_QUEUE w ++ [QueueMessage.mk (nanoid_at (ticks w)) agentId "seo_audit" body]
    ∧ ¬ queue_backed w1
    ∧ forall messageId,
        agentTasks
          (handleQueueMessage
             (Message.mk messageId
                (QueueMessage.mk (nanoid_at (ticks w)) agentId "seo_audit" body)) w1).2
        = agentTasks w.
Proof.
  intros Hfresh. unfold post_seo_audit, JOBS_QUEUE_send. rewrite bind_nanoid.
  do 2 eexists. split; [reflexivity |]. cbn.
  split; [reflexivity |]. split; [reflexivity |]. split; [reflexivity |]. split.
  - intros Hq.
    destruct (Hq (QueueMessage.mk (nanoid_at (ticks w)) agentId "seo_audit" body))
      as (t & Ht & Hid).
    { cbn. apply elem_of_app. right. apply list_elem_of_here. }
    cbn in Ht, Hid. apply list_elem_of_In in Ht.
    assert (Hin : In t (List.filter (Task_id_is (nanoid_at (ticks w))) (agentTasks w))).
    { apply List.filter_In. split; [exact Ht | by apply Task_id_is_true]. }
    rewrite Hfresh in Hin. destruct Hin.
  - intros messageId. by rewrite handleQueueMessage_no_row.
Qed.

End QueueMore.

Lemma scheduled_task_is_sent_twice_witness :
  JOBS_QUEUE
    (processScheduledTasks (platform := Sample.platform Sample.succeeds)
       (post_tasks (platform := Sample.platform Sample.succeeds) "OpsAgent"
          (success (TaskRequest.mk "send_email" JS.JNull 5 (Some 1600000000)))
          Sample.empty_world).2).2
  = [QueueMessage.mk "id-0" "OpsAgent" "send_email" JS.JNull;
     QueueMessage.mk "id-0" "OpsAgent" "send_email" JS.JNull].
Proof.
  apply (scheduled_task_is_sent_twice (platform := Sample.platform Sample.succeeds)
           "OpsAgent" (TaskRequest.mk "send_email" JS.JNull 5 (Some 1600000000))
           1600000000 Sample.empty_world);
    [reflexivity | vm_compute; discriminate | cbn; lia].
Defined.

Lemma queue_backed_preserved_witness :
  queue_backed
    (post_tasks (platform := Sample.platform Sample.succeeds) "OpsAgent"
       (success (TaskRequest.mk "send_email" JS.JNull 5 None)) Sample.empty_world).2
  ∧ queue_backed
      (processScheduledTasks (platform := Sample.platform Sample.succeeds)
         Sample.empty_world).2.
Proof.
  assert (Hempty : queue_backed Sample.empty_world).
  { intros m Hm. cbn in Hm. by apply elem_of_nil in Hm. }
  destruct (queue_backed_preserved (platform := Sample.platform Sample.succeeds)
              Sample.empty_world Hempty) as (Hpost & Hsweep & _).
  split; [apply Hpost | exact Hsweep].
Defined.

Lemma seo_audit_message_has_no_row_witness :
  exists r w1,
    post_seo_audit (platform := Sample.platform Sample.succeeds) "SEOAgent" JS.JNull
      (Sample.world_of_tasks [Sample.task "t1" "send_email" 0 None]) = (Ok r, w1)
    ∧ ¬ queue_backed w1.
Proof.
  destruct (seo_audit_message_has_no_row (platform := Sample.platform Sample.succeeds)
              "SEOAgent" JS.JNull
              (Sample.world_of_tasks [Sample.task "t1" "send_email" 0 None]) eq_refl)
    as (r & w1 & Hrun & _ & _ & _ & Hnot & _).
  by exists r, w1.
Defined.

(** ** More on the decisions *)

Section DecisionsMore.

Context {crypto : Crypto} {platform : Platform}.

Lemma filter_update_where {A : Type} (cond : A -> bool) (set : A -> A) (rows : list A) :
  (forall r, cond (set r) = cond r) ->
  List.filter cond (update_where cond set rows) = set <$> List.filter cond rows.
Proof.
  intros Hcond. unfold update_where.
  induction rows as [| r rows IH]; [reflexivity |]. cbn.
  destruct (cond r) eqn:Hr.
  - rewrite Hcond, Hr. cbn. by rewrite IH.
  - rewrite Hr. exact IH.
Qed.







(** The payload stored for a flag change gives back its key and its
    value. *)
Lemma FlagChange_to_json_get data :
  JS.get "flagKey" (FlagChange.to_json data) = Some (JS.JStr (FlagChange.flagKey data))
  ∧ JS.get "value" (FlagChange.to_json data) = Some (FlagChange.value data).
Proof. split; reflexivity. Qed.





End DecisionsMore.

(** ** The jobs of the cron *)

Section Cron.

Context {platform : Platform} {calendar : Calendar} {view : ErrorView} {jobs : CronJobs}.

(** X25. The weekly audit writes one [pending] task of [SEOAgent], sends one
    message that names it and that the consumer gives to the audit
    handler, and adds one snapshot; the task has no [scheduledFor], so no
    sweep ever sends it again, and the message does not carry the payload
    stored in the row. The ledger and the flags are left as they were. *)
Theorem runSEOAudit_enqueues (w : World) :
  exists t m k w',
    runSEOAudit w = (Ok tt, w')
    ∧ agentTasks w' = agentTasks w ++ [t]
    ∧ JOBS_QUEUE w' = JOBS_QUEUE w ++ [m]
    ∧ kpiSnapshots w' = kpiSnapshots w ++ [k]
    ∧ QueueMessage.taskId m = Task.id t
    ∧ handler_of (QueueMessage.type m) = Some runSEOAuditTask
    ∧ Task.agentId t = "SEOAgent"
    ∧ Task.status t = Task.pending
    ∧ (forall now, is_due now t = false)
    ∧ QueueMessage.payload m ≠ Task.payloadJson t
    ∧ Kpi.metric k = "seo_audit_initiated"
    ∧ agentChanges w' = agentChanges w
    ∧ CONFIG_KV w' = CONFIG_KV w.
Proof.
  unfold runSEOAudit, CURRENT_TIMESTAMP, JOBS_QUEUE_send.
  rewrite bind_nanoid, bind_new_Date, bind_new_Date.
  do 4 eexists. split; [reflexivity |]. cbn.
  repeat (split; [first [reflexivity | discriminate] |]).
  reflexivity.
Qed.

Lemma ErrorSignature_key_is_true errorKey r :
  ErrorSignature_key_is errorKey r = true <-> ErrorSignature.key r = errorKey.
Proof. unfold ErrorSignature_key_is. apply String.eqb_eq. Qed.

(** With one row per key at most, the rows filed under a key are one
    row at most. *)
Lemma filter_key_unique errorKey (rows : list ErrorSignature.t) c rest :
  NoDup (ErrorSignature.key <$> rows) ->
  List.filter (ErrorSignature_key_is errorKey) rows = c :: rest ->
  rest = [].
Proof.
  induction rows as [| r rows IH]; [discriminate |].
  intros Hnd Hf. cbn in Hnd. apply NoDup_cons in Hnd as [Hr Hnd]. cbn in Hf.
  destruct (ErrorSignature_key_is errorKey r) eqn:Hkey; [| by apply IH].
  injection Hf as <- Hrest.
  destruct rest as [| c' rest]; [reflexivity |]. exfalso. apply Hr.
  assert (Hin : In c' (List.filter (ErrorSignature_key_is errorKey) rows))
    by (rewrite Hrest; by left).
  apply List.filter_In in Hin as [Hin Hc'].
  apply ErrorSignature_key_is_true in Hkey, Hc'. rewrite Hkey, <- Hc'.
  apply list_elem_of_fmap. exists c'. split; [reflexivity | by apply list_elem_of_In].
Qed.

Lemma filter_other_key errorKey k set (rows : list ErrorSignature.t) :
  k ≠ errorKey ->
  (forall r, ErrorSignature.key (set r) = ErrorSignature.key r) ->
  List.filter (ErrorSignature_key_is k)
    (update_where (ErrorSignature_key_is errorKey) set rows)
  = List.filter (ErrorSignature_key_is k) rows.
Proof.
  intros Hne Hkey. unfold update_where.
  induction rows as [| r rows IH]; [reflexivity |]. cbn.
  destruct (ErrorSignature_key_is errorKey r) eqn:Hr.
  - assert (Hk : ErrorSignature_key_is k r = false).
    { apply ErrorSignature_key_is_true in Hr.
      destruct (ErrorSignature_key_is k r) eqn:Hk; [| reflexivity].
      apply ErrorSignature_key_is_true in Hk. congruence. }
    assert (Hk' : ErrorSignature_key_is k (set r) = false).
    { unfold ErrorSignature_key_is in *. by rewrite Hkey. }
    rewrite Hk, Hk'. exact IH.
  - destruct (ErrorSignature_key_is k r); [by rewrite IH | exact IH].
Qed.

(** One filing of an error: an upsert on its key. *)
Lemma logCronError_step (error : Thrown) (cronTime : Z) (s : Store) :
  NoDup (ErrorSignature.key <$> errorSignatures s) ->
  NoDup (ErrorSignature.key <$> errorSignatures (logCronError error cronTime s))
  ∧ count_for (cron_error_key error cronTime)
      (errorSignatures (logCronError error cronTime s))
    = count_for (cron_error_key error cronTime) (errorSignatures s) + 1
  ∧ (forall k, k ≠ cron_error_key error cronTime ->
       List.filter (ErrorSignature_key_is k)
         (errorSignatures (logCronError error cronTime s))
       = List.filter (ErrorSignature_key_is k) (errorSignatures s))
  ∧ agentTasks (world (logCronError error cronTime s)) = agentTasks (world s)
  ∧ JOBS_QUEUE (world (logCronError error cronTime s)) = JOBS_QUEUE (world s)
  ∧ agentChanges (world (logCronError error cronTime s)) = agentChanges (world s).
Proof.
  intros Hnd. unfold logCronError.
  destruct (List.filter (ErrorSignature_key_is (cron_error_key error cronTime))
              (errorSignatures s)) as [| c rest] eqn:Hf; cbn [take errorSignatures world].
  - split; [| split; [| split; [| repeat split]]].
    + unfold insert_row. rewrite fmap_app. apply NoDup_app. split; [exact Hnd |].
      split; [| apply NoDup_singleton].
      intros k Hk ->%list_elem_of_singleton. cbn in Hk.
      apply list_elem_of_fmap in Hk as (r & Hkey & Hr).
      apply list_elem_of_In in Hr.
      assert (Hin : In r (List.filter (ErrorSignature_key_is (cron_error_key error cronTime))
                            (errorSignatures s))).
      { apply List.filter_In. split; [exact Hr |]. by apply ErrorSignature_key_is_true. }
      rewrite Hf in Hin. destruct Hin.
    + unfold count_for, insert_row. rewrite List.filter_app, Hf. cbn.
      unfold ErrorSignature_key_is. cbn. rewrite String.eqb_refl. reflexivity.
    + intros k Hk. unfold insert_row. rewrite List.filter_app. cbn.
      unfold ErrorSignature_key_is at 2. cbn.
      rewrite (proj2 (String.eqb_neq _ _)) by congruence. apply app_nil_r.
  - pose proof (filter_key_unique _ _ _ _ Hnd Hf) as ->.
    split; [| split; [| split; [| repeat split]]].
    + unfold update_where. rewrite <- list_fmap_compose.
      erewrite list_fmap_ext; [exact Hnd |].
      intros _ r _. cbn. by destruct (ErrorSignature_key_is _ r).
    + unfold count_for. rewrite filter_update_where by reflexivity.
      rewrite Hf. cbn. lia.
    + intros k Hk. by apply filter_other_key.
Qed.


(** X26. Filing an error of the cron is an upsert on the key
    [cron_<name>_<hour>]. With one row per key at most, [n] filings of an
    error in the same hour add exactly [n] to the count filed under its
    key (a first row starts at one) and never make a second row for the
    key; the rows of the other keys are left as they were, and no table of
    the world changes. *)
Theorem logCronError_accumulates (error : Thrown) (cronTime : Z) (n : nat) (s : Store) :
  NoDup (ErrorSignature.key <$> errorSignatures s) ->
  NoDup (ErrorSignature.key
           <$> errorSignatures (Nat.iter n (logCronError error cronTime) s))
  ∧ count_for (cron_error_key error cronTime)
      (errorSignatures (Nat.iter n (logCronError error cronTime) s))
    = count_for (cron_error_key error cronTime) (errorSignatures s) + Z.of_nat n
  ∧ (forall k, k ≠ cron_error_key error cronTime ->
       List.filter (ErrorSignature_key_is k)
         (errorSignatures (Nat.iter n (logCronError error cronTime) s))
       = List.filter (ErrorSignature_key_is k) (errorSignatures s))
  ∧ agentTasks (world (Nat.iter n (logCronError error cronTime) s))
    = agentTasks (world s)
  ∧ JOBS_QUEUE (world (Nat.iter n (logCronError error cronTime) s))
    = JOBS_QUEUE (world s)
  ∧ agentChanges (world (Nat.iter n (logCronError error cronTime) s))
    = agentChanges (world s).
Proof.
  intros Hnd. induction n as [| n (IHnd & IHcount & IHother & IHt & IHq & IHc)].
  - cbn. repeat split; [exact Hnd | lia].
  - change (Nat.iter (S n) (logCronError error cronTime) s)
      with (logCronError error cronTime (Nat.iter n (logCronError error cronTime) s)).
    destruct (logCronError_step error cronTime _ IHnd)
      as (Hnd' & Hcount & Hother & Ht & Hq & Hc).
    split; [exact Hnd' |]. split; [rewrite Hcount, IHcount; lia |].
    split; [intros k Hk; by rewrite Hother, IHother |].
    repeat split; congruence.
Qed.

(** X27. On a trigger that is neither on the hour nor at 11:30 UTC, the cron
    does the sweep of the scheduled tasks and nothing else. *)
Theorem cron_off_schedule_only_sweeps (scheduledTime : Z) (s : Store) :
  getUTCMinutes scheduledTime ≠ 0 ->
  ¬ (getUTCHours scheduledTime = 11 ∧ getUTCMinutes scheduledTime = 30) ->
  handleCronTrigger scheduledTime s
  = mkStore (processScheduledTasks (world s)).2 (errorSignatures s).
Proof.
  intros Hminute Hreport. unfold handleCronTrigger, cron_jobs.
  assert (H0 : (getUTCMinutes scheduledTime =? 0) = false) by by apply Z.eqb_neq.
  assert (H1 : (getUTCHours scheduledTime =? 11) && (getUTCMinutes scheduledTime =? 30)
               = false).
  { apply andb_false_iff.
    destruct (Z.eqb_spec (getUTCHours scheduledTime) 11);
      destruct (Z.eqb_spec (getUTCMinutes scheduledTime) 30); auto.
    exfalso. by apply Hreport. }
  rewrite H0, H1, !andb_false_r. unfold when, and_then, lift_job.
  rewrite processScheduledTasks_run. reflexivity.
Qed.

(** X28. When the daily report throws at 11:30 UTC, nothing that follows it
    in the trigger runs, the sweep of the scheduled tasks included: the
    trigger ends by filing the error, so the tasks and the queue stay as
    the report left them. *)
Theorem cron_failed_report_skips_sweep (scheduledTime : Z) (s s1 : Store) (e : Thrown) :
  getUTCHours scheduledTime = 11 ->
  getUTCMinutes scheduledTime = 30 ->
  generateDailyReport s = (Throw e, s1) ->
  handleCronTrigger scheduledTime s = logCronError e scheduledTime s1
  ∧ agentTasks (world (handleCronTrigger scheduledTime s)) = agentTasks (world s1)
  ∧ JOBS_QUEUE (world (handleCronTrigger scheduledTime s)) = JOBS_QUEUE (world s1)
  ∧ List.filter (ErrorSignature_key_is (cron_error_key e scheduledTime))
      (errorSignatures (handleCronTrigger scheduledTime s)) ≠ [].
Proof.
  intros Hhour Hminute Hthrow.
  assert (Hrun : handleCronTrigger scheduledTime s = logCronError e scheduledTime s1).
  { unfold handleCronTrigger, cron_jobs. rewrite Hhour, Hminute.
    change ((11 =? 11) && (30 =? 30)) with true.
    unfold and_then at 1. unfold when at 1. rewrite Hthrow. reflexivity. }
  rewrite Hrun. split; [reflexivity |].
  unfold logCronError.
  destruct (List.filter (ErrorSignature_key_is (cron_error_key e scheduledTime))
              (errorSignatures s1)) as [| c rest] eqn:Hf; cbn [take errorSignatures world].
  - repeat split. unfold insert_row. rewrite List.filter_app, Hf. cbn.
    unfold ErrorSignature_key_is. cbn. rewrite String.eqb_refl. discriminate.
  - repeat split. rewrite filter_update_where by reflexivity. rewrite Hf. discriminate.
Qed.

End Cron.

(** ** Refusals of [approve], and what the consumer keeps *)

Section Refusals.

Context {crypto : Crypto} {platform : Platform}.





(** X19. Whatever the handlers of a batch do, the consumer leaves the number
    of rows of [agent_tasks] and the [id], [attempts] and [maxAttempts] of
    every row as they were; so a table that has [attempts <= maxAttempts]
    on every row keeps it. *)
Theorem consumer_keeps_retry_budget (batch : list Message.t) (w : World) :
  Forall2 (fun t t' =>
             Task.id t' = Task.id t
             ∧ Task.attempts t' = Task.attempts t
             ∧ Task.maxAttempts t' = Task.maxAttempts t)
    (agentTasks w) (agentTasks (handleQueueBatch batch w).2)
  ∧ (Forall (fun t => Task.attempts t <= Task.maxAttempts t) (agentTasks w) ->
     Forall (fun t => Task.attempts t <= Task.maxAttempts t)
       (agentTasks (handleQueueBatch batch w).2)).
Proof.
  pose proof (handleQueueBatch_budget batch w) as Hrows.
  split; [exact Hrows |].
  eapply budget_kept, Forall2_impl; [exact Hrows |].
  cbn. intros t t' (_ & ? & ?). auto.
Qed.

End Refusals.






Lemma logCronError_accumulates_witness :
  count_for
    (cron_error_key (view := Fixture.view) (ErrorObject "report failed") 1736076600000)
    (errorSignatures
       (Nat.iter 3
          (logCronError (platform := Sample.platform Sample.succeeds) (view := Fixture.view)
             (ErrorObject "report failed") 1736076600000)
          (mkStore Sample.empty_world [])))
  = count_for
      (cron_error_key (view := Fixture.view) (ErrorObject "report failed") 1736076600000)
      [] + Z.of_nat 3.
Proof.
  destruct (logCronError_accumulates (platform := Sample.platform Sample.succeeds)
              (view := Fixture.view) (ErrorObject "report failed") 1736076600000 3
              (mkStore Sample.empty_world []) (NoDup_nil_2 (A := string)))
    as (_ & Hcount & _).
  exact Hcount.
Defined.

Lemma cron_off_schedule_only_sweeps_witness :
  handleCronTrigger (platform := Sample.platform Sample.succeeds)
    (calendar := Fixture.calendar) (view := Fixture.view)
    (jobs := Fixture.jobs (fun s => (Ok tt, s)))
    1736042700000 (mkStore (Sample.world_of_tasks Sample.backlog) [])
  = mkStore
      (processScheduledTasks (platform := Sample.platform Sample.succeeds)
         (Sample.world_of_tasks Sample.backlog)).2 [].
Proof.
  apply (cron_off_schedule_only_sweeps (platform := Sample.platform Sample.succeeds)
           (calendar := Fixture.calendar) (view := Fixture.view)
           (jobs := Fixture.jobs (fun s => (Ok tt, s)))
           1736042700000 (mkStore (Sample.world_of_tasks Sample.backlog) [])).
  - intros Hminute. vm_compute in Hminute. discriminate Hminute.
  - intros [Hhour _]. vm_compute in Hhour. discriminate Hhour.
Defined.

Lemma cron_failed_report_skips_sweep_witness :
  JOBS_QUEUE
    (world
       (handleCronTrigger (platform := Sample.platform Sample.succeeds)
          (calendar := Fixture.calendar) (view := Fixture.view)
          (jobs := Fixture.jobs (fun s => (Throw (ErrorObject "report failed"), s)))
          1736076600000 (mkStore (Sample.world_of_tasks Sample.backlog) [])))
  = [].
Proof.
  destruct (cron_failed_report_skips_sweep (platform := Sample.platform Sample.succeeds)
              (calendar := Fixture.calendar) (view := Fixture.view)
              (jobs := Fixture.jobs (fun s => (Throw (ErrorObject "report failed"), s)))
              1736076600000 (mkStore (Sample.world_of_tasks Sample.backlog) [])
              (mkStore (Sample.world_of_tasks Sample.backlog) [])
              (ErrorObject "report failed") eq_refl eq_refl eq_refl)
    as (_ & _ & Hqueue & _).
  exact Hqueue.
Defined.
